(** * agente-noticias: the news assistant of [main.py]

    A shallow embedding of [main.py]: the token accumulator
    [TokenCounterCallback], the search step [search_news], the sentiment step
    [analyze_sentiment] and the dispatcher [process_request], with the two
    hosted collaborators (the chat model and the search tool) as oracles.

    Python values are modelled as follows.
    - A [str] is the list of its Unicode code points ([list N]); [len] is
      [length], literals are decoded from their UTF-8 text by [utf8].
    - An [int] is a [Z] (Python integers are unbounded).
    - A [dict] is a [gmap] keyed by [str].
    - An exception is represented by its message [str(e)], the only thing the
      program reads of it.

    The console loop [main] is embedded as a function of the lines read from
    standard input, giving the texts written in order; the [print] of an
    answer may raise, as the inner [try] of the loop covers it. Floating-point
    token counts are outside the value model: the statements about counts say
    which values they range over. *)

From Stdlib Require Import ZArith NArith List Bool Ascii String DecimalString Lia.
From Stdlib Require Import DecimalPos DecimalZ.
From stdpp Require Import base option list gmap.

Local Open Scope N_scope.

(** ** Python strings *)

Abbreviation pystr := (list N) (only parsing).

Module PyStr.

(** *** Literals *)

(** UTF-8 decoding of a well-formed byte sequence: [pending] continuation
    bytes are still expected for the code point accumulated in [acc]. *)
Fixpoint utf8_decode (pending : nat) (acc : N) (bs : list N) : pystr :=
  match bs with
  | [] => []
  | b :: r =>
      match pending with
      | O =>
          if b <? 128 then b :: utf8_decode 0 0 r
          else if b <? 224 then utf8_decode 1 (N.land b 31) r
          else if b <? 240 then utf8_decode 2 (N.land b 15) r
          else utf8_decode 3 (N.land b 7) r
      | S p =>
          let acc' := acc * 64 + N.land b 63 in
          match p with
          | O => acc' :: utf8_decode 0 0 r
          | S _ => utf8_decode p acc' r
          end
      end
  end.

Definition utf8 (s : string) : pystr :=
  utf8_decode 0 0 (map N_of_ascii (list_ascii_of_string s)).

(** *** [startswith], [in], [find] *)

(** [s.startswith(prefix)] *)
Fixpoint startswith (s prefix : pystr) {struct prefix} : bool :=
  match prefix, s with
  | [], _ => true
  | p :: ps, c :: cs => (p =? c) && startswith cs ps
  | _ :: _, [] => false
  end.

(** [sub in s]: some suffix of [s] starts with [sub]. *)
Fixpoint contains (sub s : pystr) : bool :=
  startswith s sub ||
  match s with
  | [] => false
  | _ :: t => contains sub t
  end.

(** The specification of [in]: [kw] occurs in [s] as a run of consecutive
    code points. *)
Definition occurs_in (kw s : pystr) : Prop :=
  exists pre post, s = pre ++ kw ++ post.

(** *** [replace] *)

(** [s.replace(old, new)] for a non-empty [old]: a left-to-right scan that
    replaces each occurrence and resumes after it (occurrences do not
    overlap, and text produced by a replacement is never rescanned).
    [skip] counts the characters of a matched occurrence still to be
    consumed. *)
Fixpoint replace_scan (old new : pystr) (skip : nat) (s : pystr) : pystr :=
  match s with
  | [] => []
  | c :: t =>
      match skip with
      | S k => replace_scan old new k t
      | O =>
          if startswith s old
          then new ++ replace_scan old new (Nat.pred (length old)) t
          else c :: replace_scan old new 0 t
      end
  end.

(** [s.replace(old, new)]; for an empty [old], Python inserts [new] before
    every character and at the end. *)
Definition replace (s old new : pystr) : pystr :=
  match old with
  | [] => new ++ flat_map (fun c => c :: new) s
  | _ :: _ => replace_scan old new 0 s
  end.

(** *** [strip] *)

(** [c.isspace()]: the code points CPython's [_PyUnicode_IsWhitespace]
    accepts. *)
Definition isspace (c : N) : bool :=
  ((9 <=? c) && (c <=? 13)) || ((28 <=? c) && (c <=? 32)) ||
  (c =? 133) || (c =? 160) || (c =? 5760) ||
  ((8192 <=? c) && (c <=? 8202)) || (c =? 8232) || (c =? 8233) ||
  (c =? 8239) || (c =? 8287) || (c =? 12288).

Fixpoint lstrip (s : pystr) : pystr :=
  match s with
  | [] => []
  | c :: t => if isspace c then lstrip t else s
  end.

Definition rstrip (s : pystr) : pystr := rev (lstrip (rev s)).

(** [s.strip()] *)
Definition strip (s : pystr) : pystr := rstrip (lstrip s).

(** *** [str.join], [str(int)] *)

(** [sep.join(parts)] *)
Fixpoint join (sep : pystr) (parts : list pystr) : pystr :=
  match parts with
  | [] => []
  | [p] => p
  | p :: ps => p ++ sep ++ join sep ps
  end.

(** [str(z)] for an [int]: decimal digits, with a leading [-] when negative. *)
Definition str_of_int (z : Z) : pystr :=
  map N_of_ascii (list_ascii_of_string (NilZero.string_of_int (Z.to_int z))).

(** *** [lower] on Latin-1 *)

(** [str.lower] of a code point below U+0100: [A]-[Z] and the Latin-1 capitals
    U+00C0..U+00DE (except the multiplication sign U+00D7) move up by 32, all
    others are unchanged. *)
Definition lower_latin1 (c : N) : N :=
  if ((65 <=? c) && (c <=? 90)) ||
     ((192 <=? c) && (c <=? 222) && negb (c =? 215))
  then c + 32 else c.

End PyStr.

(** ** Python values, exceptions and statements *)

Module Py.

(** The JSON-like values a provider reports: [None], an [int], a [str] or a
    [dict] with [str] keys. A [float] is not among them: [n += v] with a
    [float] [v] succeeds in Python and turns the total into a [float], so
    what is proved of counts is stated for integer counts, or for counts of
    the kinds listed here. *)
#[warnings="-register-all"]
Inductive pyval : Type :=
| VNone
| VInt (z : Z)
| VStr (s : pystr)
| VDict (d : gmap pystr pyval).

(** [bool(v)], as tested by [if v] and [not v]. *)
Definition truthy (v : pyval) : bool :=
  match v with
  | VNone => false
  | VInt z => negb (z =? 0)%Z
  | VStr s => match s with [] => false | _ :: _ => true end
  | VDict d => match map_to_list d with [] => false | _ :: _ => true end
  end.

(** [type(v).__name__] *)
Definition type_name (v : pyval) : pystr :=
  match v with
  | VNone => PyStr.utf8 "NoneType"
  | VInt _ => PyStr.utf8 "int"
  | VStr _ => PyStr.utf8 "str"
  | VDict _ => PyStr.utf8 "dict"
  end.

(** The outcome of a statement: a value, or a raised [Exception] given by
    its message [str(e)]. *)
Inductive result (A : Type) : Type :=
| Return (a : A)
| Raise (e : pystr).
Arguments Return {A} a.
Arguments Raise {A} e.

(** Statements that read and update a state [S] and may raise: the state
    reached when an exception is raised is kept (updates made before the
    raise are not undone). *)
Definition M (S A : Type) : Type := S -> result A * S.

Definition ret {S A} (a : A) : M S A := fun s => (Return a, s).

Definition raise {S A} (e : pystr) : M S A := fun s => (Raise e, s).

Definition bind {S A B} (m : M S A) (k : A -> M S B) : M S B :=
  fun s =>
    match m s with
    | (Return a, s') => k a s'
    | (Raise e, s') => (Raise e, s')
    end.

(** [try: body  except Exception as e: handler(str(e))] *)
Definition try_except {S A} (body : M S A) (handler : pystr -> M S A) : M S A :=
  fun s =>
    match body s with
    | (Return a, s') => (Return a, s')
    | (Raise e, s') => handler e s'
    end.

Definition get {S} : M S S := fun s => (Return s, s).

Definition modify {S} (f : S -> S) : M S unit := fun s => (Return tt, f s).

(** [o.get(key, dflt)]: the [dict] method; any other value has no attribute
    [get] ([AttributeError]). *)
Definition dict_get {S} (o : pyval) (key : pystr) (dflt : pyval) : M S pyval :=
  match o with
  | VDict d => ret (default dflt (d !! key))
  | _ =>
      raise (PyStr.utf8 "'" ++ type_name o ++
             PyStr.utf8 "' object has no attribute 'get'")
  end.

(** [n + v] for an [int] [n]: defined when [v] is an [int], a [TypeError]
    otherwise. *)
Definition int_add {S} (n : Z) (v : pyval) : M S Z :=
  match v with
  | VInt z => ret (n + z)%Z
  | _ =>
      raise (PyStr.utf8 "unsupported operand type(s) for +=: 'int' and '" ++
             type_name v ++ PyStr.utf8 "'")
  end.

End Py.

Notation "x <- m ;; k" := (Py.bind m (fun x => k))
  (at level 63, m at next level, right associativity, only parsing).
Notation "m ;;; k" := (Py.bind m (fun _ => k))
  (at level 63, right associativity, only parsing).

(** ** The token accumulator: [class TokenCounterCallback] *)

Module TokenCounter.
Import Py.

Record TokenCounterCallback : Type := {
  total_tokens : Z;
  prompt_tokens : Z;
  completion_tokens : Z
}.

(** [TokenCounterCallback()] *)
Definition __init__ : TokenCounterCallback :=
  {| total_tokens := 0; prompt_tokens := 0; completion_tokens := 0 |}.

(** The [response] handed to [on_llm_end]: [llm_output] is [None] when the
    object has no such attribute ([hasattr] is false), and the attribute's
    value otherwise. *)
Record LLMResult : Type := { llm_output : option pyval }.

Definition set_prompt_tokens (z : Z) (self : TokenCounterCallback) :=
  {| total_tokens := total_tokens self; prompt_tokens := z;
     completion_tokens := completion_tokens self |}.

Definition set_completion_tokens (z : Z) (self : TokenCounterCallback) :=
  {| total_tokens := total_tokens self; prompt_tokens := prompt_tokens self;
     completion_tokens := z |}.

Definition set_total_tokens (z : Z) (self : TokenCounterCallback) :=
  {| total_tokens := z; prompt_tokens := prompt_tokens self;
     completion_tokens := completion_tokens self |}.

(** [self.<field> += token_usage.get(key, 0)] *)
Definition add_field (field : TokenCounterCallback -> Z)
    (set_field : Z -> TokenCounterCallback -> TokenCounterCallback)
    (token_usage : pyval) (key : string) : M TokenCounterCallback unit :=
  v <- dict_get token_usage (PyStr.utf8 key) (VInt 0) ;;
  self <- get ;;
  n <- int_add (field self) v ;;
  modify (set_field n).

Definition on_llm_end (response : LLMResult) : M TokenCounterCallback unit :=
  match llm_output response with
  | Some out =>
      if truthy out then
        token_usage <- dict_get out (PyStr.utf8 "token_usage") (VDict ∅) ;;
        add_field prompt_tokens set_prompt_tokens token_usage "prompt_tokens" ;;;
        add_field completion_tokens set_completion_tokens token_usage "completion_tokens" ;;;
        add_field total_tokens set_total_tokens token_usage "total_tokens"
      else ret tt
  | None => ret tt
  end.

(** [print_usage]: the text the six [print] calls write to standard output. *)
Definition print_usage (self : TokenCounterCallback) : pystr :=
  PyStr.utf8 "
" ++ repeat 61%N 50 ++ PyStr.utf8 "
TOKENS UTILIZADOS:
  Prompt tokens: " ++ PyStr.str_of_int (prompt_tokens self) ++ PyStr.utf8 "
  Completion tokens: " ++ PyStr.str_of_int (completion_tokens self) ++ PyStr.utf8 "
  Total tokens: " ++ PyStr.str_of_int (total_tokens self) ++ PyStr.utf8 "
" ++ repeat 61%N 50 ++ PyStr.utf8 "

".

(** *** Vocabulary of the accumulator's properties *)

(** The accumulator after a sequence of completion events, each handled by
    [on_llm_end] (an exception raised by the callback does not stop the
    process: the callback manager logs it). *)
Definition on_completions (events : list LLMResult)
    (self : TokenCounterCallback) : TokenCounterCallback :=
  fold_left (fun self response => snd (on_llm_end response self)) events self.

(** Field-wise order on accumulators. *)
Definition counter_le (a b : TokenCounterCallback) : Prop :=
  (prompt_tokens a <= prompt_tokens b)%Z /\
  (completion_tokens a <= completion_tokens b)%Z /\
  (total_tokens a <= total_tokens b)%Z.

(** Every token count the response reports is non-negative. *)
Definition nonneg_counts (response : LLMResult) : Prop :=
  forall d u key z,
    llm_output response = Some (VDict d) ->
    d !! PyStr.utf8 "token_usage" = Some (VDict u) ->
    u !! key = Some (VInt z) ->
    (0 <= z)%Z.

(** The response reports the usage [(prompt, completion, total)]. *)
Definition reports (response : LLMResult) (usage : Z * Z * Z) : Prop :=
  let '(p, c, t) := usage in
  exists d u,
    llm_output response = Some (VDict d) /\
    d !! PyStr.utf8 "token_usage" = Some (VDict u) /\
    u !! PyStr.utf8 "prompt_tokens" = Some (VInt p) /\
    u !! PyStr.utf8 "completion_tokens" = Some (VInt c) /\
    u !! PyStr.utf8 "total_tokens" = Some (VInt t).

Definition zsum (l : list Z) : Z := fold_right Z.add 0%Z l.

(** The response carries no token-usage metadata: it has no [llm_output],
    or an empty one ([None], an empty [dict]), or one without a
    [token_usage] entry, or a [token_usage] without any of the three
    counts. *)
Inductive NoUsageMetadata (response : LLMResult) : Prop :=
| llm_output_missing :
    llm_output response = None -> NoUsageMetadata response
| llm_output_empty v :
    llm_output response = Some v -> truthy v = false ->
    NoUsageMetadata response
| token_usage_missing d :
    llm_output response = Some (VDict d) ->
    d !! PyStr.utf8 "token_usage" = None ->
    NoUsageMetadata response
| counts_missing d u :
    llm_output response = Some (VDict d) ->
    d !! PyStr.utf8 "token_usage" = Some (VDict u) ->
    u !! PyStr.utf8 "prompt_tokens" = None ->
    u !! PyStr.utf8 "completion_tokens" = None ->
    u !! PyStr.utf8 "total_tokens" = None ->
    NoUsageMetadata response.

(** The three updates of [on_llm_end] on a given [token_usage]. *)
Definition add_counts (token_usage : pyval) : M TokenCounterCallback unit :=
  add_field prompt_tokens set_prompt_tokens token_usage "prompt_tokens" ;;;
  add_field completion_tokens set_completion_tokens token_usage "completion_tokens" ;;;
  add_field total_tokens set_total_tokens token_usage "total_tokens".

(** A count is well-formed when it is missing or an [int]. *)
Definition count_ok (u : gmap pystr pyval) (key : string) : Prop :=
  u !! PyStr.utf8 key = None \/ exists z, u !! PyStr.utf8 key = Some (VInt z).

(** The amount a well-formed count stands for: its value, or the default
    [0] when it is missing. *)
Definition count_of (u : gmap pystr pyval) (key : string) : Z :=
  match u !! PyStr.utf8 key with
  | Some (VInt z) => z
  | _ => 0%Z
  end.

(** The response of a provider that reports the usage [(p, c, t)]. *)
Definition usage_response (p c t : Z) : LLMResult :=
  {| llm_output :=
       Some (VDict {[ PyStr.utf8 "token_usage" :=
                        VDict (<[ PyStr.utf8 "prompt_tokens" := VInt p ]>
                               (<[ PyStr.utf8 "completion_tokens" := VInt c ]>
                                {[ PyStr.utf8 "total_tokens" := VInt t ]})) ]}) |}.

(** [self] with the three amounts added. *)
Definition add_usage (self : TokenCounterCallback) (p c t : Z) : TokenCounterCallback :=
  {| total_tokens := total_tokens self + t;
     prompt_tokens := prompt_tokens self + p;
     completion_tokens := completion_tokens self + c |}.

End TokenCounter.

(** ** The assistant: [search_news], [analyze_sentiment], [process_request] *)

Module Agent.
Import Py TokenCounter.

(** What [llm.invoke] does: it raises, or returns a message with its
    [content] and hands the provider's [LLMResult] to the callbacks. *)
Inductive LLMReply : Type :=
| LLMError (e : pystr)
| LLMMessage (content : pystr) (response : LLMResult).

(** A value returned by [search.invoke]: a list of result records
    ([dict]s of [str]), or a [str]. *)
Inductive SearchValue : Type :=
| ResultList (results : list (gmap pystr pystr))
| ResultText (text : pystr).

(** What building the search tool and calling [search.invoke] does. *)
Inductive SearchReply : Type :=
| SearchError (e : pystr)
| SearchReturn (results : SearchValue).

(** The state a turn runs in: the process environment, the calls made so
    far to the two collaborators (most recent first), and the accumulator
    object that [token_counter] refers to. *)
Record World : Type := {
  environ : gmap pystr pystr;
  search_log : list pystr;
  llm_log : list pystr;
  token_counter : TokenCounterCallback
}.

Definition log_search (query : pystr) (w : World) : World :=
  {| environ := environ w; search_log := query :: search_log w;
     llm_log := llm_log w; token_counter := token_counter w |}.

Definition log_llm (prompt : pystr) (w : World) : World :=
  {| environ := environ w; search_log := search_log w;
     llm_log := prompt :: llm_log w; token_counter := token_counter w |}.

Definition set_token_counter (c : TokenCounterCallback) (w : World) : World :=
  {| environ := environ w; search_log := search_log w;
     llm_log := llm_log w; token_counter := c |}.

(** [enumerate(l, start)] *)
Fixpoint enumerate {A} (start : Z) (l : list A) : list (Z * A) :=
  match l with
  | [] => []
  | x :: t => (start, x) :: enumerate (start + 1)%Z t
  end.

(** [not v] for a value returned by the search tool. *)
Definition search_value_falsy (v : SearchValue) : bool :=
  match v with
  | ResultList [] => true
  | ResultList (_ :: _) => false
  | ResultText [] => true
  | ResultText (_ :: _) => false
  end.

(** The name of the search credential in the environment. *)
Definition TAVILY_API_KEY : pystr := PyStr.utf8 "TAVILY_API_KEY".

Definition no_news_message : pystr :=
  PyStr.utf8 "Nenhuma notícia encontrada para este tópico.".

Definition no_credential_message : pystr :=
  PyStr.utf8 "ERRO: TAVILY_API_KEY não encontrada no arquivo .env".

(** The [AttributeError] of [result.get] when [result] is a [str]. *)
Definition attribute_error_message : pystr :=
  PyStr.utf8 "'str' object has no attribute 'get'".

Section WithCollaborators.

(** [str.lower], whose case tables belong to the Python runtime. *)
Variable str_lower : pystr -> pystr.

(** The chat model: its reply to a prompt, given the prompts it was sent
    before. *)
Variable llm : list pystr -> pystr -> LLMReply.

(** The search tool built with an API key: its reply to a query, given the
    queries it was sent before. *)
Variable tavily : list pystr -> pystr -> pystr -> SearchReply.

(** [os.getenv(name)] *)
Definition getenv (name : pystr) : M World (option pystr) :=
  w <- get ;; ret (environ w !! name).

(** [TavilySearchResults(api_key=api_key, max_results=5).invoke(query)] *)
Definition search_invoke (api_key query : pystr) : M World SearchValue :=
  w <- get ;;
  modify (log_search query) ;;;
  match tavily (search_log w) api_key query with
  | SearchError e => raise e
  | SearchReturn results => ret results
  end.

(** [llm.invoke(prompt, config={"callbacks": [token_counter]}).content]:
    on success the callback manager calls [token_counter.on_llm_end] and
    swallows what it raises; on failure it calls [on_llm_error], which
    [TokenCounterCallback] does not override. *)
Definition llm_invoke (prompt : pystr) : M World pystr :=
  w <- get ;;
  modify (log_llm prompt) ;;;
  match llm (llm_log w) prompt with
  | LLMError e => raise e
  | LLMMessage content response =>
      modify (fun w => set_token_counter (snd (on_llm_end response (token_counter w))) w) ;;;
      ret content
  end.

(** The body of the [for] loop of [search_news]. *)
Definition format_result (ir : Z * gmap pystr pystr) : pystr :=
  let (i, result) := ir in
  let title := default (PyStr.utf8 "Sem título") (result !! PyStr.utf8 "title") in
  let content := default (PyStr.utf8 "Sem conteúdo") (result !! PyStr.utf8 "content") in
  let url := default [] (result !! PyStr.utf8 "url") in
  PyStr.str_of_int i ++ PyStr.utf8 ". " ++ title ++ PyStr.utf8 "
   " ++ content ++ PyStr.utf8 "
   Fonte: " ++ url.

Definition search_news (query : pystr) : M World pystr :=
  try_except
    (tavily_api_key <- getenv TAVILY_API_KEY ;;
     match tavily_api_key with
     | None | Some [] => ret no_credential_message
     | Some ((_ :: _) as api_key) =>
         results <- search_invoke api_key query ;;
         if search_value_falsy results
         then ret no_news_message
         else
           match results with
           | ResultList results =>
               ret (PyStr.join (PyStr.utf8 "

") (map format_result (enumerate 1 results)))
           | ResultText _ =>
               raise attribute_error_message
           end
     end)
    (fun e => ret (PyStr.utf8 "ERRO ao buscar notícias: " ++ e)).

Definition sentiment_prompt_of_text (text : pystr) : pystr :=
  PyStr.utf8 "Analise o sentimento do seguinte texto e classifique como POSITIVO ou NEGATIVO.
Forneça também uma justificativa curta (máximo 2 linhas) explicando o porquê da classificação.

Texto: " ++ text ++ PyStr.utf8 "

Responda no seguinte formato:
Sentimento: [POSITIVO ou NEGATIVO]
Justificativa: [explicação curta]

Resposta:".

Definition analyze_sentiment (text : pystr) : M World pystr :=
  let prompt := sentiment_prompt_of_text text in
  try_except
    (content <- llm_invoke prompt ;;
     let result := PyStr.strip content in
     ret result)
    (fun e => ret (PyStr.utf8 "ERRO ao analisar sentimento: " ++ e)).

(** The words removed from a sentiment request, in the order of the loop. *)
Definition trigger_words : list pystr :=
  [PyStr.utf8 "analise"; PyStr.utf8 "sentimento"; PyStr.utf8 "analisa";
   PyStr.utf8 "o sentimento"; PyStr.utf8 "da notícia";
   PyStr.utf8 "desta notícia"; PyStr.utf8 "do texto"].

(** Lines 80-83: [text_to_analyze] after the loop, the removal of [:] and
    [strip]. *)
Definition text_to_analyze (user_input : pystr) : pystr :=
  let text_to_analyze := user_input in
  let text_to_analyze :=
    fold_left (fun text word => PyStr.replace text word []) trigger_words
              text_to_analyze in
  PyStr.strip (PyStr.replace text_to_analyze (PyStr.utf8 ":") []).

Definition need_text_message : pystr :=
  PyStr.utf8 "Por favor, forneça o texto da notícia para análise. Exemplo: 'Analise o sentimento: [texto da notícia]'".

(** The first branch of [process_request] (lines 80-89). *)
Definition sentiment_branch (user_input : pystr) : M World pystr :=
  let text_to_analyze := text_to_analyze user_input in
  if (length text_to_analyze <? 20)%nat then ret need_text_message
  else
    sentiment_result <- analyze_sentiment text_to_analyze ;;
    ret sentiment_result.

Definition summary_prompt (results : pystr) : pystr :=
  PyStr.utf8 "Com base nos seguintes resultados de busca, crie um resumo MUITO CONCISO (máximo 3-5 tópicos curtos) das principais notícias:

Resultados: " ++ results ++ PyStr.utf8 "

IMPORTANTE: Seja extremamente breve, máximo 3-5 bullet points!

Resumo:".

Definition sentiment_prompt (summary : pystr) : pystr :=
  PyStr.utf8 "Analise o sentimento geral das seguintes notícias e classifique como POSITIVO ou NEGATIVO.
Forneça uma justificativa curta (máximo 1 linha).

Notícias: " ++ summary ++ PyStr.utf8 "

Responda no formato:
Sentimento: [POSITIVO ou NEGATIVO]
Justificativa: [explicação curta em 1 linha]

Resposta:".

(** The text returned when both calls of the search branch succeed. *)
Definition summary_report (summary sentiment : pystr) : pystr :=
  summary ++ PyStr.utf8 "

" ++ repeat 61%N 50 ++ PyStr.utf8 "
ANÁLISE DE SENTIMENTO
" ++ repeat 61%N 50 ++ PyStr.utf8 "
" ++ sentiment.

(** The second branch of [process_request] (lines 92-125). *)
Definition search_branch (user_input : pystr) : M World pystr :=
  results <- search_news user_input ;;
  if PyStr.startswith results (PyStr.utf8 "ERRO") then ret results
  else
    let prompt := summary_prompt results in
    try_except
      (summary <- llm_invoke prompt ;;
       let sentiment_prompt := sentiment_prompt summary in
       sentiment_content <- llm_invoke sentiment_prompt ;;
       let sentiment := PyStr.strip sentiment_content in
       ret (summary_report summary sentiment))
      (fun e => ret (PyStr.utf8 "ERRO ao processar resultados: " ++ e)).

Definition general_prompt (user_input : pystr) : pystr :=
  PyStr.utf8 "Você é um assistente de notícias. Responda à seguinte pergunta de forma breve:

" ++ user_input ++ PyStr.utf8 "

Resposta:".

(** The last branch of [process_request] (lines 128-138). *)
Definition general_branch (user_input : pystr) : M World pystr :=
  let prompt := general_prompt user_input in
  try_except
    (content <- llm_invoke prompt ;; ret content)
    (fun e => ret (PyStr.utf8 "ERRO: " ++ e)).

Definition process_request (user_input : pystr) : M World pystr :=
  let user_lower := str_lower user_input in
  if PyStr.contains (PyStr.utf8 "analise") user_lower
     || PyStr.contains (PyStr.utf8 "sentimento") user_lower
     || PyStr.contains (PyStr.utf8 "analisa") user_lower
  then sentiment_branch user_input
  else if PyStr.contains (PyStr.utf8 "busque") user_lower
          || PyStr.contains (PyStr.utf8 "buscar") user_lower
          || PyStr.contains (PyStr.utf8 "notícias") user_lower
          || PyStr.contains (PyStr.utf8 "noticias") user_lower
          || PyStr.contains (PyStr.utf8 "procure") user_lower
  then search_branch user_input
  else general_branch user_input.

(** *** Vocabulary of the assistant's properties *)

Inductive Intent : Type := SentimentAnalysis | NewsSearch | GeneralQuery.

Definition sentiment_keywords : list pystr :=
  [PyStr.utf8 "analise"; PyStr.utf8 "analisa"; PyStr.utf8 "sentimento"].

Definition search_keywords : list pystr :=
  [PyStr.utf8 "busque"; PyStr.utf8 "buscar"; PyStr.utf8 "notícias";
   PyStr.utf8 "noticias"; PyStr.utf8 "procure"].

Definition has_keyword (keywords : list pystr) (s : pystr) : Prop :=
  Exists (fun kw => PyStr.occurs_in kw s) keywords.

(** The intent the router is specified to select for a lowercased input:
    the first rule that matches, in the order sentiment, search, general. *)
Definition selects (user_lower : pystr) (i : Intent) : Prop :=
  match i with
  | SentimentAnalysis => has_keyword sentiment_keywords user_lower
  | NewsSearch =>
      ~ has_keyword sentiment_keywords user_lower /\
      has_keyword search_keywords user_lower
  | GeneralQuery =>
      ~ has_keyword sentiment_keywords user_lower /\
      ~ has_keyword search_keywords user_lower
  end.

Definition handler (i : Intent) : pystr -> M World pystr :=
  match i with
  | SentimentAnalysis => sentiment_branch
  | NewsSearch => search_branch
  | GeneralQuery => general_branch
  end.

(** The search credential is absent ([os.getenv] returns [None]) or empty. *)
Definition no_search_credential (w : World) : Prop :=
  environ w !! TAVILY_API_KEY = None \/ environ w !! TAVILY_API_KEY = Some [].

(** An API call of the search pipeline fails during the turn for
    [user_input] started in [w]: [PipelineFailure w user_input label e] holds
    when the failing call raises the exception [e], [label] being the text
    the program puts before it. The search fails by raising, or by
    returning a text instead of records; the summarization call fails
    after a successful search; the sentiment call fails after a successful
    summarization. *)
Inductive PipelineFailure (w : World) (user_input : pystr) : pystr -> pystr -> Prop :=
| search_raises api_key e :
    environ w !! TAVILY_API_KEY = Some api_key -> api_key <> [] ->
    tavily (search_log w) api_key user_input = SearchError e ->
    PipelineFailure w user_input (PyStr.utf8 "ERRO ao buscar notícias: ") e
| search_returns_text api_key c text :
    environ w !! TAVILY_API_KEY = Some api_key -> api_key <> [] ->
    tavily (search_log w) api_key user_input = SearchReturn (ResultText (c :: text)) ->
    PipelineFailure w user_input (PyStr.utf8 "ERRO ao buscar notícias: ")
      attribute_error_message
| summary_raises results w1 e :
    search_news user_input w = (Return results, w1) ->
    PyStr.startswith results (PyStr.utf8 "ERRO") = false ->
    llm (llm_log w1) (summary_prompt results) = LLMError e ->
    PipelineFailure w user_input (PyStr.utf8 "ERRO ao processar resultados: ") e
| sentiment_raises results w1 summary response e :
    search_news user_input w = (Return results, w1) ->
    PyStr.startswith results (PyStr.utf8 "ERRO") = false ->
    llm (llm_log w1) (summary_prompt results) = LLMMessage summary response ->
    llm (summary_prompt results :: llm_log w1) (sentiment_prompt summary) = LLMError e ->
    PipelineFailure w user_input (PyStr.utf8 "ERRO ao processar resultados: ") e.

(** A deterministic chat model: the same prompt yields the same reply,
    whatever was asked before. *)
Definition deterministic_llm : Prop :=
  forall log1 log2 prompt, llm log1 prompt = llm log2 prompt.

(** [str_lower] agrees with Python on strings of code points below U+0100. *)
Definition lower_agrees_on_latin1 : Prop :=
  forall s, Forall (fun c => c < 256) s -> str_lower s = map PyStr.lower_latin1 s.

End WithCollaborators.

(** A statement under which the accumulator only grows. *)
Definition counter_grows {A} (m : M World A) : Prop :=
  forall w, counter_le (token_counter w) (token_counter (snd (m w))).

(** Every response the chat model hands to the callbacks reports
    non-negative counts. *)
Definition llm_reports_nonneg (llm : list pystr -> pystr -> LLMReply) : Prop :=
  forall log prompt content response,
    llm log prompt = LLMMessage content response -> nonneg_counts response.

(** *** Test doubles *)

(** [str.lower] restricted to Latin-1 text. *)
Definition lower_l1 (s : pystr) : pystr := map PyStr.lower_latin1 s.

(** A chat model that answers every prompt with the same text and no usage
    metadata. *)
Definition mock_llm (answer : pystr) : list pystr -> pystr -> LLMReply :=
  fun _ _ => LLMMessage answer {| llm_output := None |}.

(** A chat model that is down. *)
Definition failing_llm (e : pystr) : list pystr -> pystr -> LLMReply :=
  fun _ _ => LLMError e.

(** A search tool that finds nothing. *)
Definition empty_search : list pystr -> pystr -> pystr -> SearchReply :=
  fun _ _ _ => SearchReturn (ResultList []).

(** A search tool that is down. *)
Definition failing_search (e : pystr) : list pystr -> pystr -> pystr -> SearchReply :=
  fun _ _ _ => SearchError e.

(** A fresh process whose environment holds the given variables. *)
Definition fresh_world (env : gmap pystr pystr) : World :=
  {| environ := env; search_log := []; llm_log := [];
     token_counter := __init__ |}.

Definition configured_world : World :=
  fresh_world {[ TAVILY_API_KEY := PyStr.utf8 "tvly-key" ]}.

End Agent.

(** ** The console session: [main] *)

Module Main.
Import Py TokenCounter Agent.

(** What the session writes is the list of its texts, in order: one per
    [print] call (its text and a newline) and one per [input] prompt (which
    goes to standard output when input is redirected; on a terminal CPython
    may show it on standard error). *)
Definition print (text : pystr) : pystr := text ++ [10].

Definition MISTRAL_API_KEY : pystr := PyStr.utf8 "MISTRAL_API_KEY".

(** The words that end the session. *)
Definition exit_words : list pystr :=
  [PyStr.utf8 "sair"; PyStr.utf8 "exit"; PyStr.utf8 "quit"].

(** The prompt written by [input]. *)
Definition input_prompt : pystr := PyStr.utf8 "Você: ".

(** [str(e)] of the [EOFError] raised by [input] when standard input is
    exhausted. *)
Definition eof_message : pystr := PyStr.utf8 "EOF when reading a line".

Definition banner : list pystr :=
  [print (repeat 61 50); print (PyStr.utf8 "ASSISTENTE AVALIADOR DE NOTÍCIAS");
   print (repeat 61 50)].

Definition greeting : list pystr :=
  [print (PyStr.utf8 "
Agente inicializado com sucesso!");
   print (PyStr.utf8 "Digite 'sair' para encerrar
");
   print (PyStr.utf8 "Comandos disponíveis:");
   print (PyStr.utf8 "  - 'Busque notícias sobre [tópico]'");
   print (PyStr.utf8 "  - 'Analise o sentimento: [texto da notícia]'
")].

Definition goodbye : pystr := print (PyStr.utf8 "
Encerrando assistente...").

Definition blank_warning : pystr :=
  print (PyStr.utf8 "Por favor, digite uma pergunta válida.").

(** [print(f"\nAssistente: {response}\n")] *)
Definition answer_text (response : pystr) : pystr :=
  print (PyStr.utf8 "
Assistente: " ++ response ++ PyStr.utf8 "
").

(** [print(f"\nERRO ao processar pergunta: {str(e)}\n")] *)
Definition turn_error_text (e : pystr) : pystr :=
  print (PyStr.utf8 "
ERRO ao processar pergunta: " ++ e ++ PyStr.utf8 "
").

(** [print(f"\nERRO ao inicializar o agente: {str(e)}\n")] *)
Definition init_error_text (e : pystr) : pystr :=
  print (PyStr.utf8 "
ERRO ao inicializar o agente: " ++ e ++ PyStr.utf8 "
").

Definition no_llm_credential_message : pystr :=
  PyStr.utf8 "ERRO: MISTRAL_API_KEY não encontrada no arquivo .env".

Section WithCollaborators.

Variable str_lower : pystr -> pystr.

(** [ChatMistralAI(model="ministral-8b-latest", mistral_api_key=key,
    temperature=0.3)]: the chat model built with the key, or the exception
    the constructor raises. *)
Variable ChatMistralAI : pystr -> result (list pystr -> pystr -> LLMReply).

Variable tavily : list pystr -> pystr -> pystr -> SearchReply.

(** Standard output may refuse a text it cannot encode: [stdout_rejects text]
    is then the message of the exception [print] raises (nothing is
    written), and [None] when the text is written. This is consulted for
    the answers, which come from the chat model; the program's own texts,
    the usage report and the messages of exceptions are taken to be
    writable. *)
Variable stdout_rejects : pystr -> option pystr.

(** What the inner [try] writes once [process_request] has returned
    [response]: the answer, or the error text of the turn when the [print]
    of the answer raises. *)
Definition answer_or_error (response : pystr) : pystr :=
  match stdout_rejects (answer_text response) with
  | None => answer_text response
  | Some e => turn_error_text e
  end.

(** [user_input.lower() in ['sair', 'exit', 'quit']] *)
Definition is_exit (user_input : pystr) : bool :=
  bool_decide (str_lower user_input ∈ exit_words).

(** The [while True] loop, run on the lines still to be read from standard
    input: it gives the texts written, how the loop ends ([break], or the
    exception that leaves it) and the world it leaves. Each iteration reads
    one line; [input] raises [EOFError] when none is left. The inner [try]
    covers [process_request] and the [print] of its answer: when either
    raises, the handler writes the error text of the turn. *)
Fixpoint loop (llm : list pystr -> pystr -> LLMReply) (stdin : list pystr)
    (w : World) : list pystr * result unit * World :=
  match stdin with
  | [] => ([input_prompt], Raise eof_message, w)
  | line :: stdin =>
      let user_input := PyStr.strip line in
      if is_exit user_input then
        ([input_prompt; goodbye; print_usage (token_counter w)], Return tt, w)
      else
        match user_input with
        | [] =>
            let '(out, r, w') := loop llm stdin w in
            (input_prompt :: blank_warning :: out, r, w')
        | _ :: _ =>
            let (response, w1) := process_request str_lower llm tavily user_input w in
            let text :=
              match response with
              | Return response => answer_or_error response
              | Raise e => turn_error_text e
              end in
            let '(out, r, w') := loop llm stdin w1 in
            (input_prompt :: text :: out, r, w')
        end
  end.

(** [main()], run with the lines of standard input in a world whose
    accumulator field is replaced by the fresh [TokenCounterCallback()]:
    the texts written and the world left. *)
Definition main (stdin : list pystr) (w : World) : list pystr * World :=
  match environ w !! MISTRAL_API_KEY with
  | None | Some [] => (banner ++ [init_error_text no_llm_credential_message], w)
  | Some ((_ :: _) as mistral_api_key) =>
      match ChatMistralAI mistral_api_key with
      | Raise e => (banner ++ [init_error_text e], w)
      | Return llm =>
          let '(out, r, w') := loop llm stdin (set_token_counter __init__ w) in
          (banner ++ greeting ++ out ++
           match r with
           | Return _ => []
           | Raise e => [init_error_text e]
           end, w')
      end
  end.

(** *** Vocabulary of the session's properties *)

(** The line ends the session: stripped and lowercased it is an exit word. *)
Definition exit_line (line : pystr) : Prop :=
  is_exit (PyStr.strip line) = true.

(** The line is blank: empty once stripped. *)
Definition blank_line (line : pystr) : bool :=
  match PyStr.strip line with [] => true | _ :: _ => false end.

(** The chat model is built from a key found in the environment. *)
Definition llm_ready (w : World) (llm : list pystr -> pystr -> LLMReply) : Prop :=
  exists key, environ w !! MISTRAL_API_KEY = Some key /\ key <> [] /\
              ChatMistralAI key = Return llm.

End WithCollaborators.

(** A constructor that always builds the given chat model. *)
Definition mistral_ok (llm : list pystr -> pystr -> LLMReply) :
    pystr -> result (list pystr -> pystr -> LLMReply) :=
  fun _ => Return llm.

(** A fresh process with both credentials. *)
Definition ready_world : World :=
  fresh_world (<[ MISTRAL_API_KEY := PyStr.utf8 "mistral-key" ]>
               {[ TAVILY_API_KEY := PyStr.utf8 "tvly-key" ]}).

End Main.

(** ** Vocabulary of the effects of a turn *)

Module Effects.
Import Py TokenCounter Agent.

(** The statement returns a value in every world: no exception leaves it. *)
Definition never_raises {A} (m : M World A) : Prop :=
  forall w, exists a, fst (m w) = Return a.

(** From [w] to [w'] the environment is unchanged and at most [searches]
    queries and [chats] prompts were sent, the earlier calls being kept. *)
Definition calls_between (w w' : World) (searches chats : nat) : Prop :=
  environ w' = environ w /\
  (exists queries, search_log w' = queries ++ search_log w /\
                   (length queries <= searches)%nat) /\
  (exists prompts, llm_log w' = prompts ++ llm_log w /\
                   (length prompts <= chats)%nat).

(** The statement sends at most [searches] queries to the search tool and
    [chats] prompts to the chat model. *)
Definition makes_calls {A} (m : M World A) (searches chats : nat) : Prop :=
  forall w, calls_between w (snd (m w)) searches chats.

(** The bounds of a turn, by intent. *)
Definition search_bound (i : Intent) : nat :=
  match i with NewsSearch => 1%nat | _ => 0%nat end.

Definition chat_bound (i : Intent) : nat :=
  match i with NewsSearch => 2%nat | _ => 1%nat end.

(** The statement treats the accumulator additively: started from an
    accumulator with more in each field, it ends the same way with as much
    more in each field. *)
Definition shift_invariant {A} (m : M TokenCounterCallback A) : Prop :=
  forall s p c t,
    m (add_usage s p c t) = (fst (m s), add_usage (snd (m s)) p c t).

(** The keys of the three counts. *)
Definition count_keys : list pystr :=
  [PyStr.utf8 "prompt_tokens"; PyStr.utf8 "completion_tokens";
   PyStr.utf8 "total_tokens"].

(** Every count the response reports under [token_usage] is an [int]. *)
Definition integer_counts (response : LLMResult) : Prop :=
  forall d u key v,
    llm_output response = Some (VDict d) ->
    d !! PyStr.utf8 "token_usage" = Some (VDict u) ->
    In key count_keys ->
    u !! key = Some v ->
    exists z, v = VInt z.

(** The values [n += v] rejects for an [int] [n]: [None], a [str], a
    [dict]. *)
Inductive rejected_count : pyval -> Prop :=
| rejected_none : rejected_count VNone
| rejected_str s : rejected_count (VStr s)
| rejected_dict d : rejected_count (VDict d).

Definition not_dict (v : pyval) : Prop := forall u, v <> VDict u.

(** The message of the [AttributeError] of [v.get]. *)
Definition no_get_message (v : pyval) : pystr :=
  PyStr.utf8 "'" ++ type_name v ++ PyStr.utf8 "' object has no attribute 'get'".

(** The message of the [TypeError] of [n += v] for an [int] [n]. *)
Definition bad_operand_message (v : pyval) : pystr :=
  PyStr.utf8 "unsupported operand type(s) for +=: 'int' and '" ++
  type_name v ++ PyStr.utf8 "'".

End Effects.

(** ** More test doubles *)

Module Doubles.
Import Py TokenCounter Agent.

(** A search tool that finds one record, without content or link. *)
Definition found_search : list pystr -> pystr -> pystr -> SearchReply :=
  fun _ _ _ => SearchReturn (ResultList [ {[ PyStr.utf8 "title" := PyStr.utf8 "PIB cresce" ]} ]).

(** A chat model that answers every prompt with the same text and reports
    the same usage. *)
Definition metered_llm (answer : pystr) (p c t : Z) : list pystr -> pystr -> LLMReply :=
  fun _ _ => LLMMessage answer (usage_response p c t).

(** A standard output that accepts every text. *)
Definition accepting_stdout : pystr -> option pystr := fun _ => None.



End Doubles.

(** * Properties *)

(** ** Python strings *)

Module PyStrFacts.
Import PyStr.

Lemma startswith_iff (s p : pystr) :
  startswith s p = true <-> exists t, s = p ++ t.
Proof.
  revert s; induction p as [|c p IH]; intros s; simpl.
  - split; [intros _; now exists s | intros _; reflexivity].
  - destruct s as [|d s].
    + split; [discriminate | intros [t Ht]; discriminate].
    + rewrite andb_true_iff, N.eqb_eq, IH. split.
      * intros [-> [t ->]]. now exists t.
      * intros [t Ht]. injection Ht as -> ->. eauto.
Qed.

Lemma contains_iff (sub s : pystr) :
  contains sub s = true <-> occurs_in sub s.
Proof.
  unfold occurs_in. induction s as [|c s IH].
  - simpl. rewrite orb_false_r, startswith_iff. split.
    + intros [t Ht]. exists [], t. exact Ht.
    + intros [pre [post H]]. destruct pre; [eauto | discriminate].
  - cbn [contains]. rewrite orb_true_iff, startswith_iff, IH. split.
    + intros [[t Ht] | [pre [post Ht]]].
      * exists [], t. exact Ht.
      * exists (c :: pre), post. now rewrite Ht.
    + intros [[|d pre] [post Ht]].
      * left. now exists post.
      * right. injection Ht as -> ->. eauto.
Qed.

Lemma contains_false_iff (sub s : pystr) :
  contains sub s = false <-> ~ occurs_in sub s.
Proof.
  rewrite <- contains_iff. destruct (contains sub s); split; intros H;
    try reflexivity; try discriminate; try (intros H'; discriminate).
  now destruct H.
Qed.

Lemma occurs_in_app_r (sub a b : pystr) :
  occurs_in sub b -> occurs_in sub (a ++ b).
Proof.
  intros [pre [post ->]]. exists (a ++ pre), post. now rewrite <- app_assoc.
Qed.

Lemma occurs_in_cons (sub : pystr) (c : N) (s : pystr) :
  occurs_in sub s -> occurs_in sub (c :: s).
Proof. apply (occurs_in_app_r sub [c] s). Qed.

(** A pending [skip] consumes that many characters. *)
Lemma replace_scan_drop (old new : pystr) (k : nat) (s : pystr) :
  replace_scan old new k s = replace_scan old new 0 (drop k s).
Proof.
  revert k; induction s as [|c s IH]; intros [|k]; try reflexivity.
  simpl. apply IH.
Qed.

(** The scan at an occurrence: it is replaced, and the scan resumes after it. *)
Lemma replace_at_occurrence (old new rest : pystr) :
  old <> [] ->
  replace (old ++ rest) old new = new ++ replace rest old new.
Proof.
  destruct old as [|o os]; [congruence | intros _].
  unfold replace. cbn [app replace_scan].
  assert (Hs : startswith (o :: os ++ rest) (o :: os) = true)
    by (apply startswith_iff; now exists rest).
  rewrite Hs, replace_scan_drop. cbn [length Nat.pred].
  now rewrite drop_app_length.
Qed.

(** The scan where no occurrence starts: the character is kept. *)
Lemma replace_no_occurrence_here (old new : pystr) (c : N) (s : pystr) :
  old <> [] -> startswith (c :: s) old = false ->
  replace (c :: s) old new = c :: replace s old new.
Proof.
  destruct old as [|o os]; [congruence | intros _ H].
  unfold replace. cbn [replace_scan]. now rewrite H.
Qed.

(** Without an occurrence, [replace] changes nothing. *)
Lemma replace_absent (s old new : pystr) :
  ~ occurs_in old s -> replace s old new = s.
Proof.
  intros H. assert (Hne : old <> []).
  { intros ->. apply H. now exists [], s. }
  induction s as [|c s IH].
  - destruct old; [congruence | reflexivity].
  - rewrite replace_no_occurrence_here; trivial.
    + f_equal. apply IH. intros Ho. apply H. now apply occurs_in_cons.
    + destruct (startswith (c :: s) old) eqn:E; trivial.
      exfalso. apply H. apply startswith_iff in E as [t ->]. now exists [], t.
Qed.

(** The leftmost occurrence is removed whatever surrounds it. *)
Lemma replace_leftmost (a old new b : pystr) :
  old <> [] ->
  (forall pre post, a ++ old ++ b = pre ++ old ++ post -> (length a <= length pre)%nat) ->
  replace (a ++ old ++ b) old new = a ++ new ++ replace b old new.
Proof.
  intros Hne. induction a as [|c a IH]; intros Hleft.
  - cbn [app]. now apply replace_at_occurrence.
  - cbn [app]. rewrite replace_no_occurrence_here; trivial.
    + f_equal. apply IH. intros pre post E.
      specialize (Hleft (c :: pre) post). cbn in Hleft. rewrite E in Hleft.
      specialize (Hleft eq_refl). lia.
    + destruct (startswith (c :: a ++ old ++ b) old) eqn:E; trivial.
      apply startswith_iff in E as [t Ht].
      specialize (Hleft [] t Ht). cbn in Hleft. lia.
Qed.

(** Removing a single character removes all of its occurrences. *)
Lemma replace_char_removed (c : N) (s : pystr) : ~ In c (replace s [c] []).
Proof.
  unfold replace. induction s as [|d s IH]; [intros [] |].
  cbn [replace_scan startswith]. destruct (N.eqb_spec c d) as [->|Hne]; cbn.
  - exact IH.
  - intros [E | H]; [congruence | now apply IH].
Qed.

Lemma in_lstrip (c : N) (s : pystr) : In c (lstrip s) -> In c s.
Proof.
  induction s as [|d s IH]; simpl; [trivial |].
  destruct (isspace d); [right; now apply IH | trivial].
Qed.

Lemma in_strip (c : N) (s : pystr) : In c (strip s) -> In c s.
Proof.
  unfold strip, rstrip. intros H.
  apply in_lstrip. apply in_rev. apply in_lstrip. now apply in_rev in H.
Qed.

End PyStrFacts.

(** ** The token accumulator *)

Module TokenCounterFacts.
Import Py TokenCounter.

Lemma counter_le_refl (s : TokenCounterCallback) : counter_le s s.
Proof. unfold counter_le. lia. Qed.

Lemma counter_le_trans (a b c : TokenCounterCallback) :
  counter_le a b -> counter_le b c -> counter_le a c.
Proof. unfold counter_le. lia. Qed.

Lemma add_usage_zero (s : TokenCounterCallback) : add_usage s 0 0 0 = s.
Proof. destruct s. unfold add_usage. cbn. now rewrite !Z.add_0_r. Qed.

Lemma truthy_dict_lookup (d : gmap pystr pyval) (k : pystr) (v : pyval) :
  d !! k = Some v -> truthy (VDict d) = true.
Proof.
  intros H. cbn. destruct (map_to_list d) eqn:E; [| reflexivity].
  apply map_to_list_empty_iff in E. subst d. now rewrite lookup_empty in H.
Qed.

(** One [self.<field> += token_usage.get(key, 0)]: it adds the count, or
    raises and leaves the accumulator as it was. *)
Lemma add_field_cases field set_field (token_usage : pyval) (key : string)
    (self : TokenCounterCallback) :
  (exists u, token_usage = VDict u /\ count_ok u key /\
     add_field field set_field token_usage key self
     = (Return tt, set_field (field self + count_of u key)%Z self))
  \/ ((forall u, token_usage = VDict u -> ~ count_ok u key) /\
      exists e, add_field field set_field token_usage key self = (Raise e, self)).
Proof.
  unfold add_field, bind, dict_get, get, modify, int_add, ret, raise, count_ok, count_of.
  destruct token_usage as [| z | t | u];
    try (right; split; [intros u Hu; discriminate | eauto]).
  destruct (u !! PyStr.utf8 key) as [[| z | t | d]|] eqn:E;
    cbn [from_option id fst snd];
    try (right; split;
         [intros u' Hu'; injection Hu' as <-;
          intros [H | [z' H]]; congruence
         | eauto]);
    left; exists u; rewrite E; eauto.
Qed.

Lemma on_llm_end_dict (response : LLMResult) (d : gmap pystr pyval)
    (self : TokenCounterCallback) :
  llm_output response = Some (VDict d) -> truthy (VDict d) = true ->
  on_llm_end response self
  = add_counts (default (VDict ∅) (d !! PyStr.utf8 "token_usage")) self.
Proof.
  intros Ho Ht. unfold on_llm_end. rewrite Ho, Ht. reflexivity.
Qed.

(** With well-formed counts the three updates add [count_of] each. *)
Lemma add_counts_ok (u : gmap pystr pyval) (self : TokenCounterCallback) :
  count_ok u "prompt_tokens" -> count_ok u "completion_tokens" ->
  count_ok u "total_tokens" ->
  add_counts (VDict u) self
  = (Return tt,
     add_usage self (count_of u "prompt_tokens") (count_of u "completion_tokens")
               (count_of u "total_tokens")).
Proof.
  intros Hp Hc Ht. unfold add_counts, bind.
  destruct (add_field_cases prompt_tokens set_prompt_tokens (VDict u) "prompt_tokens" self)
    as [[u1 [E1 [_ ->]]] | [N _]]; [injection E1 as <- | now destruct (N u eq_refl)].
  match goal with |- context [add_field completion_tokens _ _ _ ?s] =>
    destruct (add_field_cases completion_tokens set_completion_tokens (VDict u)
                "completion_tokens" s)
      as [[u2 [E2 [_ ->]]] | [N _]]; [injection E2 as <- | now destruct (N u eq_refl)]
  end.
  match goal with |- context [add_field total_tokens _ _ _ ?s] =>
    destruct (add_field_cases total_tokens set_total_tokens (VDict u)
                "total_tokens" s)
      as [[u3 [E3 [_ ->]]] | [N _]]; [injection E3 as <- | now destruct (N u eq_refl)]
  end.
  reflexivity.
Qed.

Lemma count_of_missing (u : gmap pystr pyval) (key : string) :
  u !! PyStr.utf8 key = None -> count_of u key = 0%Z.
Proof. unfold count_of. now intros ->. Qed.

Lemma count_of_int (u : gmap pystr pyval) (key : string) (z : Z) :
  u !! PyStr.utf8 key = Some (VInt z) -> count_of u key = z.
Proof. unfold count_of. now intros ->. Qed.

Lemma count_ok_empty (key : string) : count_ok ∅ key.
Proof. left. apply lookup_empty. Qed.

Lemma add_counts_monotone (token_usage : pyval) (self : TokenCounterCallback) :
  (forall u key z, token_usage = VDict u -> u !! key = Some (VInt z) -> (0 <= z)%Z) ->
  counter_le self (snd (add_counts token_usage self)).
Proof.
  intros Hpos.
  assert (Hc : forall u key, token_usage = VDict u -> (0 <= count_of u key)%Z).
  { intros u key Hu. unfold count_of.
    destruct (u !! PyStr.utf8 key) as [[| z | |]|] eqn:E; try lia. eauto. }
  unfold add_counts, bind.
  destruct (add_field_cases prompt_tokens set_prompt_tokens token_usage "prompt_tokens" self)
    as [[u1 [E1 [_ ->]]] | [_ [e ->]]]; [| apply counter_le_refl].
  match goal with |- context [add_field completion_tokens _ _ _ ?s] =>
    destruct (add_field_cases completion_tokens set_completion_tokens token_usage
                "completion_tokens" s) as [[u2 [E2 [_ ->]]] | [_ [e ->]]]
  end.
  - match goal with |- context [add_field total_tokens _ _ _ ?s] =>
      destruct (add_field_cases total_tokens set_total_tokens token_usage
                  "total_tokens" s) as [[u3 [E3 [_ ->]]] | [_ [e ->]]]
    end; unfold counter_le; cbn;
      pose proof (Hc u1 "prompt_tokens"%string E1);
      pose proof (Hc u2 "completion_tokens"%string E2);
      try pose proof (Hc u3 "total_tokens"%string E3); lia.
  - unfold counter_le; cbn. pose proof (Hc u1 "prompt_tokens"%string E1). lia.
Qed.

Lemma on_llm_end_monotone (response : LLMResult) (self : TokenCounterCallback) :
  nonneg_counts response -> counter_le self (snd (on_llm_end response self)).
Proof.
  intros Hpos. unfold on_llm_end.
  destruct (llm_output response) as [out|] eqn:Ho; [| apply counter_le_refl].
  destruct (truthy out) eqn:Ht; [| apply counter_le_refl].
  destruct out as [| z | t | d]; try apply counter_le_refl.
  change (counter_le self
            (snd (add_counts (default (VDict ∅) (d !! PyStr.utf8 "token_usage")) self))).
  apply add_counts_monotone. intros u key z Hu Hz.
  destruct (d !! PyStr.utf8 "token_usage") as [v|] eqn:E; cbn [from_option id] in Hu.
  - subst v. eapply Hpos; eauto.
  - injection Hu as <-. now rewrite lookup_empty in Hz.
Qed.

Lemma on_llm_end_reports (response : LLMResult) (p c t : Z)
    (self : TokenCounterCallback) :
  reports response (p, c, t) ->
  on_llm_end response self = (Return tt, add_usage self p c t).
Proof.
  intros [d [u [Ho [Hu [Hp [Hc Ht]]]]]].
  rewrite (on_llm_end_dict response d self Ho (truthy_dict_lookup _ _ _ Hu)).
  rewrite Hu. cbn [from_option id].
  rewrite add_counts_ok by (right; eauto).
  now rewrite (count_of_int _ _ _ Hp), (count_of_int _ _ _ Hc), (count_of_int _ _ _ Ht).
Qed.

Lemma add_usage_add_usage (s : TokenCounterCallback) (p c t p' c' t' : Z) :
  add_usage (add_usage s p c t) p' c' t' = add_usage s (p + p') (c + c') (t + t').
Proof. unfold add_usage. cbn. f_equal; lia. Qed.

Lemma on_completions_reports (events : list LLMResult) (usages : list (Z * Z * Z))
    (self : TokenCounterCallback) :
  Forall2 reports events usages ->
  on_completions events self
  = add_usage self (zsum (map (fun u => fst (fst u)) usages))
              (zsum (map (fun u => snd (fst u)) usages))
              (zsum (map snd usages)).
Proof.
  intros H. revert self. induction H as [| r [[p c] t] events usages Hr _ IH]; intros self.
  - cbn. now rewrite add_usage_zero.
  - cbn [on_completions fold_left]. rewrite (on_llm_end_reports r p c t self Hr).
    cbn [snd]. fold (on_completions events (add_usage self p c t)).
    rewrite IH, add_usage_add_usage. reflexivity.
Qed.

Lemma on_completions_app (earlier later : list LLMResult) (self : TokenCounterCallback) :
  on_completions (earlier ++ later) self
  = on_completions later (on_completions earlier self).
Proof. unfold on_completions. apply fold_left_app. Qed.

Lemma usage_response_reports (p c t : Z) : reports (usage_response p c t) (p, c, t).
Proof.
  eexists _, _. split; [reflexivity |]. split; [apply lookup_singleton_eq |].
  split; [apply lookup_insert_eq |].
  split.
  - rewrite lookup_insert_ne by (vm_compute; discriminate). apply lookup_insert_eq.
  - rewrite !lookup_insert_ne by (vm_compute; discriminate). apply lookup_singleton_eq.
Qed.

Lemma usage_response_nonneg (p c t : Z) :
  (0 <= p)%Z -> (0 <= c)%Z -> (0 <= t)%Z -> nonneg_counts (usage_response p c t).
Proof.
  intros Hp Hc Ht d u key z Hd Hu Hz.
  unfold usage_response in Hd. cbn [llm_output] in Hd. injection Hd as <-.
  rewrite lookup_singleton_eq in Hu. injection Hu as <-.
  apply lookup_insert_Some in Hz as [[_ E] | [_ Hz]]; [injection E as <-; lia |].
  apply lookup_insert_Some in Hz as [[_ E] | [_ Hz]]; [injection E as <-; lia |].
  apply lookup_singleton_Some in Hz as [_ E]. injection E as <-. lia.
Qed.

(** C5: over any sequence of completion events whose reported token counts
    are non-negative, the accumulator only grows: each of [prompt_tokens],
    [completion_tokens] and [total_tokens] after the events [earlier ++ later]
    is at least its value after [earlier] (with [later] a single event:
    every [on_llm_end] call leaves each field at or above its previous
    value). *)
Theorem counter_monotone (earlier later : list LLMResult) (self : TokenCounterCallback) :
  Forall nonneg_counts (earlier ++ later) ->
  counter_le (on_completions earlier self) (on_completions (earlier ++ later) self).
Proof.
  intros H. apply Forall_app in H as [_ H]. rewrite on_completions_app.
  generalize (on_completions earlier self) as s.
  induction H as [| r later Hr _ IH]; intros s.
  - apply counter_le_refl.
  - eapply counter_le_trans; [apply (on_llm_end_monotone r s Hr) |]. apply IH.
Qed.

Lemma counter_monotone_witness :
  counter_le (on_completions [usage_response 3 4 7] __init__)
             (on_completions ([usage_response 3 4 7] ++ [usage_response 0 5 5])
                             __init__).
Proof.
  apply (counter_monotone [usage_response 3 4 7] [usage_response 0 5 5] __init__).
  repeat constructor; apply usage_response_nonneg; lia.
Defined.

(** C6: after the completion events [events], the i-th reporting the usage
    (p_i, c_i, t_i), the accumulator created by [__init__] holds the sums of
    the p_i, of the c_i and of the t_i, and the report [print_usage] writes
    is the fixed block with the three sums in decimal on the lines
    "Prompt tokens", "Completion tokens" and "Total tokens"; after no event
    at all the three fields are zero and the report shows 0 three times. *)
Theorem accumulator_sums (events : list LLMResult) (usages : list (Z * Z * Z)) :
  Forall2 reports events usages ->
  let self := on_completions events __init__ in
  let sums :=
    {| total_tokens := zsum (map snd usages);
       prompt_tokens := zsum (map (fun u => fst (fst u)) usages);
       completion_tokens := zsum (map (fun u => snd (fst u)) usages) |} in
  self = sums /\ print_usage self = print_usage sums /\
  (events = [] ->
   prompt_tokens self = 0%Z /\ completion_tokens self = 0%Z /\ total_tokens self = 0%Z) /\
  print_usage self
  = PyStr.utf8 "
" ++ repeat 61%N 50 ++ PyStr.utf8 "
TOKENS UTILIZADOS:
  Prompt tokens: " ++ PyStr.str_of_int (zsum (map (fun u => fst (fst u)) usages)) ++
    PyStr.utf8 "
  Completion tokens: " ++ PyStr.str_of_int (zsum (map (fun u => snd (fst u)) usages)) ++
    PyStr.utf8 "
  Total tokens: " ++ PyStr.str_of_int (zsum (map snd usages)) ++ PyStr.utf8 "
" ++ repeat 61%N 50 ++ PyStr.utf8 "

" /\
  (events = [] ->
   print_usage self
   = PyStr.utf8 "
==================================================
TOKENS UTILIZADOS:
  Prompt tokens: 0
  Completion tokens: 0
  Total tokens: 0
==================================================

").
Proof.
  intros H self sums.
  assert (E : self = sums).
  { unfold self, sums. rewrite (on_completions_reports events usages __init__ H).
    unfold add_usage, __init__. cbn [total_tokens prompt_tokens completion_tokens].
    now rewrite !Z.add_0_l. }
  split; [exact E |]. split; [now rewrite E |].
  split; [intros ->; unfold self; cbn; auto |].
  split; [rewrite E; reflexivity |].
  intros ->. unfold self. vm_compute. reflexivity.
Qed.

Lemma accumulator_sums_witness :
  on_completions [usage_response 3 4 7; usage_response 10 20 30] __init__
  = {| total_tokens := 37; prompt_tokens := 13; completion_tokens := 24 |}.
Proof.
  apply (accumulator_sums [usage_response 3 4 7; usage_response 10 20 30]
                          [(3, 4, 7); (10, 20, 30)]%Z).
  repeat constructor; apply usage_response_reports.
Defined.

(** C8: when the response carries no token-usage metadata (no [llm_output],
    an empty one, one without [token_usage], or a [token_usage] without the
    three counts), [on_llm_end] returns normally and leaves the accumulator
    unchanged; and when only some counts are missing from a [token_usage]
    whose other counts are integers, it returns normally and each missing
    count adds zero. *)
Theorem no_usage_metadata_noop (response : LLMResult) (self : TokenCounterCallback) :
  (NoUsageMetadata response -> on_llm_end response self = (Return tt, self)) /\
  (forall d u,
     llm_output response = Some (VDict d) ->
     d !! PyStr.utf8 "token_usage" = Some (VDict u) ->
     count_ok u "prompt_tokens" -> count_ok u "completion_tokens" ->
     count_ok u "total_tokens" ->
     exists p c t,
       on_llm_end response self = (Return tt, add_usage self p c t) /\
       (u !! PyStr.utf8 "prompt_tokens" = None -> p = 0%Z) /\
       (u !! PyStr.utf8 "completion_tokens" = None -> c = 0%Z) /\
       (u !! PyStr.utf8 "total_tokens" = None -> t = 0%Z)).
Proof.
  assert (Hdict : forall d u,
             llm_output response = Some (VDict d) ->
             default (VDict ∅) (d !! PyStr.utf8 "token_usage") = VDict u ->
             count_ok u "prompt_tokens" -> count_ok u "completion_tokens" ->
             count_ok u "total_tokens" ->
             on_llm_end response self
             = (Return tt,
                add_usage self (count_of u "prompt_tokens")
                          (count_of u "completion_tokens") (count_of u "total_tokens"))).
  { intros d u Ho Hu Hp Hc Ht. destruct (truthy (VDict d)) eqn:Hd.
    - rewrite (on_llm_end_dict response d self Ho Hd), Hu. now apply add_counts_ok.
    - unfold on_llm_end. rewrite Ho, Hd.
      destruct (d !! PyStr.utf8 "token_usage") as [v|] eqn:E.
      + now rewrite (truthy_dict_lookup _ _ _ E) in Hd.
      + cbn [from_option id] in Hu. injection Hu as <-.
        unfold count_of. rewrite !lookup_empty. now rewrite add_usage_zero. }
  split.
  - intros [Ho | v Ho Hv | d Ho Hd | d u Ho Hd Hp Hc Ht].
    + unfold on_llm_end. now rewrite Ho.
    + unfold on_llm_end. now rewrite Ho, Hv.
    + rewrite (Hdict d ∅ Ho); try apply count_ok_empty.
      * unfold count_of. rewrite !lookup_empty. now rewrite add_usage_zero.
      * now rewrite Hd.
    + rewrite (Hdict d u Ho); try (now left).
      * rewrite !count_of_missing by assumption. now rewrite add_usage_zero.
      * now rewrite Hd.
  - intros d u Ho Hd Hp Hc Ht.
    exists (count_of u "prompt_tokens"), (count_of u "completion_tokens"),
      (count_of u "total_tokens").
    split; [apply (Hdict d u Ho); trivial; now rewrite Hd |].
    repeat split; apply count_of_missing.
Qed.

Lemma no_usage_metadata_noop_witness :
  on_llm_end {| llm_output := Some (VDict ∅) |} __init__ = (Return tt, __init__).
Proof.
  apply (no_usage_metadata_noop {| llm_output := Some (VDict ∅) |} __init__).
  apply (llm_output_empty _ (VDict ∅)); reflexivity.
Defined.

End TokenCounterFacts.

(** ** The assistant *)

Module AgentFacts.
Import Py PyStr PyStrFacts TokenCounter Agent.

(** *** Routing *)

Lemma sentiment_condition (low : pystr) :
  contains (utf8 "analise") low || contains (utf8 "sentimento") low
  || contains (utf8 "analisa") low = true
  <-> has_keyword sentiment_keywords low.
Proof.
  unfold has_keyword, sentiment_keywords.
  rewrite !Exists_cons, Exists_nil, !orb_true_iff, !contains_iff. tauto.
Qed.

Lemma search_condition (low : pystr) :
  contains (utf8 "busque") low || contains (utf8 "buscar") low
  || contains (utf8 "notícias") low || contains (utf8 "noticias") low
  || contains (utf8 "procure") low = true
  <-> has_keyword search_keywords low.
Proof.
  unfold has_keyword, search_keywords.
  rewrite !Exists_cons, Exists_nil, !orb_true_iff, !contains_iff. tauto.
Qed.

Lemma selects_total (low : pystr) : exists i, selects low i.
Proof.
  destruct (contains (utf8 "analise") low || contains (utf8 "sentimento") low
            || contains (utf8 "analisa") low) eqn:E1.
  - exists SentimentAnalysis. now apply sentiment_condition.
  - assert (N1 : ~ has_keyword sentiment_keywords low)
      by (rewrite <- sentiment_condition, E1; discriminate).
    destruct (contains (utf8 "busque") low || contains (utf8 "buscar") low
              || contains (utf8 "notícias") low || contains (utf8 "noticias") low
              || contains (utf8 "procure") low) eqn:E2.
    + exists NewsSearch. split; [exact N1 | now apply search_condition].
    + exists GeneralQuery. split; [exact N1 |].
      rewrite <- search_condition, E2. discriminate.
Qed.

Lemma selects_functional (low : pystr) (i j : Intent) :
  selects low i -> selects low j -> i = j.
Proof. destruct i, j; cbn; tauto. Qed.

(** *** Stripping the trigger words *)

Lemma fold_replace_absent (words : list pystr) (s : pystr) :
  (forall v, In v words -> ~ occurs_in v s) ->
  fold_left (fun text word => replace text word []) words s = s.
Proof.
  induction words as [|v words IH]; intros H; [reflexivity |].
  cbn [fold_left]. rewrite replace_absent by (apply H; now left).
  apply IH. intros v' Hv'. apply H. now right.
Qed.

Lemma text_to_analyze_no_colon (user_input : pystr) :
  ~ In 58 (text_to_analyze user_input).
Proof.
  unfold text_to_analyze. intros H. apply in_strip in H.
  now apply (replace_char_removed 58) in H.
Qed.

(** Only exact occurrences are removed: a text in which no trigger word and
    no colon occurs is only stripped at its ends. *)
Lemma text_to_analyze_untouched (user_input : pystr) :
  (forall v, In v trigger_words -> ~ occurs_in v user_input) ->
  ~ occurs_in (utf8 ":") user_input ->
  text_to_analyze user_input = strip user_input.
Proof.
  intros Hw Hc. unfold text_to_analyze.
  rewrite fold_replace_absent by exact Hw. now rewrite replace_absent.
Qed.

(** An occurrence is removed whatever surrounds it, word boundary or not. *)
Lemma text_to_analyze_embedded (before : list pystr) (word : pystr)
    (after : list pystr) (a b : pystr) :
  trigger_words = before ++ word :: after ->
  (forall v, In v before -> ~ occurs_in v (a ++ word ++ b)) ->
  (forall pre post, a ++ word ++ b = pre ++ word ++ post -> (length a <= length pre)%nat) ->
  (forall v, In v trigger_words -> ~ occurs_in v (a ++ b)) ->
  ~ occurs_in (utf8 ":") (a ++ b) ->
  text_to_analyze (a ++ word ++ b) = strip (a ++ b).
Proof.
  intros Hsplit Hbefore Hleft Hrest Hcolon.
  assert (Hin : In word trigger_words) by (rewrite Hsplit; apply in_elt).
  assert (Hne : word <> []).
  { intros ->. apply (Hrest [] Hin). now exists [], (a ++ b). }
  assert (Hb : ~ occurs_in word b).
  { intros H. apply (Hrest word Hin). now apply occurs_in_app_r. }
  unfold text_to_analyze. rewrite Hsplit, fold_left_app.
  rewrite (fold_replace_absent before (a ++ word ++ b) Hbefore). cbn [fold_left].
  rewrite (replace_leftmost a word [] b Hne Hleft). cbn [app].
  rewrite (replace_absent b word [] Hb).
  rewrite (fold_replace_absent after (a ++ b)).
  - now rewrite replace_absent.
  - intros v Hv. apply Hrest. rewrite Hsplit. apply in_or_app. right. now right.
Qed.

Lemma bind_ret_run {S A} (m : M S A) (s : S) : bind m ret s = m s.
Proof. unfold bind, ret. now destruct (m s) as [[a|e] s']. Qed.

Section Facts.

Variable str_lower : pystr -> pystr.
Variable llm : list pystr -> pystr -> LLMReply.
Variable tavily : list pystr -> pystr -> pystr -> SearchReply.

Local Abbreviation llm_invoke := (Agent.llm_invoke llm).
Local Abbreviation search_news := (Agent.search_news tavily).
Local Abbreviation analyze_sentiment := (Agent.analyze_sentiment llm).
Local Abbreviation sentiment_branch := (Agent.sentiment_branch llm).
Local Abbreviation search_branch := (Agent.search_branch llm tavily).
Local Abbreviation general_branch := (Agent.general_branch llm).
Local Abbreviation process_request := (Agent.process_request str_lower llm tavily).
Local Abbreviation handler := (Agent.handler llm tavily).
Local Abbreviation PipelineFailure := (Agent.PipelineFailure llm tavily).

(** The dispatcher runs the branch of the selected intent. *)
Lemma process_request_handler (user_input : pystr) (i : Intent) :
  selects (str_lower user_input) i -> process_request user_input = handler i user_input.
Proof.
  intros H. unfold Agent.process_request.
  destruct (contains (utf8 "analise") (str_lower user_input)
            || contains (utf8 "sentimento") (str_lower user_input)
            || contains (utf8 "analisa") (str_lower user_input)) eqn:E1.
  - apply sentiment_condition in E1.
    now rewrite (selects_functional _ i SentimentAnalysis H E1).
  - assert (N1 : ~ has_keyword sentiment_keywords (str_lower user_input))
      by (rewrite <- sentiment_condition, E1; discriminate).
    destruct (contains (utf8 "busque") (str_lower user_input)
              || contains (utf8 "buscar") (str_lower user_input)
              || contains (utf8 "notícias") (str_lower user_input)
              || contains (utf8 "noticias") (str_lower user_input)
              || contains (utf8 "procure") (str_lower user_input)) eqn:E2.
    + apply search_condition in E2.
      now rewrite (selects_functional _ i NewsSearch H (conj N1 E2)).
    + assert (N2 : ~ has_keyword search_keywords (str_lower user_input))
        by (rewrite <- search_condition, E2; discriminate).
      now rewrite (selects_functional _ i GeneralQuery H (conj N1 N2)).
Qed.

(** C2: the router selects the intent by substring match on the lowercased
    input, in fixed priority order: SentimentAnalysis when it contains
    "analise", "analisa" or "sentimento"; otherwise NewsSearch when it
    contains "busque", "buscar", "notícias", "noticias" or "procure";
    otherwise GeneralQuery. Exactly one intent is selected for every input,
    and [process_request] runs that intent's branch. *)
Theorem router_priority_order (user_input : pystr) :
  (exists i, selects (str_lower user_input) i) /\
  (forall i, selects (str_lower user_input) i ->
             process_request user_input = handler i user_input) /\
  (forall i j, selects (str_lower user_input) i ->
               selects (str_lower user_input) j -> i = j).
Proof.
  split; [apply selects_total |].
  split; [apply process_request_handler | apply selects_functional].
Qed.

(** *** Running the collaborators *)

(** Unfolds the statements of a turn down to the calls of the oracles. *)
Ltac run :=
  cbv beta iota zeta delta
    [Agent.search_news Agent.search_invoke Agent.llm_invoke Agent.getenv
     Agent.analyze_sentiment Agent.sentiment_branch Agent.search_branch
     Agent.general_branch try_except bind get modify ret raise].

Lemma llm_invoke_run (prompt : pystr) (w : World) :
  llm_invoke prompt w
  = match llm (llm_log w) prompt with
    | LLMError e => (Raise e, log_llm prompt w)
    | LLMMessage content response =>
        (Return content,
         set_token_counter (snd (on_llm_end response (token_counter w)))
                           (log_llm prompt w))
    end.
Proof.
  run. destruct (llm (llm_log w) prompt); reflexivity.
Qed.

Lemma search_news_no_credential (query : pystr) (w : World) :
  no_search_credential w ->
  search_news query w = (Return no_credential_message, w).
Proof.
  intros H. run. destruct H as [-> | ->]; reflexivity.
Qed.

Lemma search_news_with_credential (query : pystr) (w : World) (api_key : pystr) :
  environ w !! TAVILY_API_KEY = Some api_key -> api_key <> [] ->
  search_news query w
  = (Return
       match tavily (search_log w) api_key query with
       | SearchError e => utf8 "ERRO ao buscar notícias: " ++ e
       | SearchReturn (ResultList []) | SearchReturn (ResultText []) => no_news_message
       | SearchReturn (ResultList (r :: rs)) =>
           join (utf8 "

") (map format_result (enumerate 1 (r :: rs)))
       | SearchReturn (ResultText (_ :: _)) =>
           utf8 "ERRO ao buscar notícias: " ++ attribute_error_message
       end,
     log_search query w).
Proof.
  intros H Hne. run. rewrite H. destruct api_key as [|c api_key]; [congruence |].
  destruct (tavily (search_log w) (c :: api_key) query) as [e | [[|r rs] | [|d t]]];
    cbv beta iota delta [search_value_falsy]; reflexivity.
Qed.

(** The search step never calls the chat model. *)
Lemma search_news_llm_log (query : pystr) (w : World) :
  llm_log (snd (search_news query w)) = llm_log w.
Proof.
  destruct (environ w !! TAVILY_API_KEY) as [[|c key]|] eqn:E.
  - rewrite search_news_no_credential; [reflexivity | now right].
  - now rewrite (search_news_with_credential query w (c :: key) E).
  - rewrite search_news_no_credential; [reflexivity | now left].
Qed.

Lemma startswith_literal (label e prefix : pystr) :
  startswith label prefix = true -> startswith (label ++ e) prefix = true.
Proof.
  rewrite !startswith_iff. intros [t ->]. exists (t ++ e). now rewrite app_assoc.
Qed.

(** *** The accumulator during a turn *)

Lemma counter_grows_ret {A} (a : A) : counter_grows (ret a).
Proof. intros w. apply TokenCounterFacts.counter_le_refl. Qed.

Lemma counter_grows_raise {A} (e : pystr) : counter_grows (@raise World A e).
Proof. intros w. apply TokenCounterFacts.counter_le_refl. Qed.

Lemma counter_grows_bind {A B} (m : M World A) (k : A -> M World B) :
  counter_grows m -> (forall a, counter_grows (k a)) -> counter_grows (bind m k).
Proof.
  intros Hm Hk w. unfold bind. specialize (Hm w).
  destruct (m w) as [[a|e] w1]; cbn [snd] in *; [| exact Hm].
  eapply TokenCounterFacts.counter_le_trans; [exact Hm | apply Hk].
Qed.

Lemma counter_grows_try {A} (body : M World A) (handle : pystr -> M World A) :
  counter_grows body -> (forall e, counter_grows (handle e)) ->
  counter_grows (try_except body handle).
Proof.
  intros Hm Hk w. unfold try_except. specialize (Hm w).
  destruct (body w) as [[a|e] w1]; cbn [snd] in *; [exact Hm |].
  eapply TokenCounterFacts.counter_le_trans; [exact Hm | apply Hk].
Qed.

Lemma counter_grows_llm_invoke (prompt : pystr) :
  llm_reports_nonneg llm -> counter_grows (llm_invoke prompt).
Proof.
  intros Hnn w. rewrite llm_invoke_run.
  destruct (llm (llm_log w) prompt) as [e | content response] eqn:E;
    cbn [snd token_counter set_token_counter log_llm].
  - apply TokenCounterFacts.counter_le_refl.
  - apply TokenCounterFacts.on_llm_end_monotone. exact (Hnn _ _ _ _ E).
Qed.

Lemma counter_grows_search_news (query : pystr) : counter_grows (search_news query).
Proof.
  intros w. destruct (environ w !! TAVILY_API_KEY) as [[|c key]|] eqn:E.
  - rewrite search_news_no_credential by (now right).
    apply TokenCounterFacts.counter_le_refl.
  - rewrite (search_news_with_credential query w (c :: key) E) by discriminate.
    apply TokenCounterFacts.counter_le_refl.
  - rewrite search_news_no_credential by (now left).
    apply TokenCounterFacts.counter_le_refl.
Qed.

Create HintDb grows.
#[local] Hint Resolve counter_grows_ret counter_grows_raise counter_grows_bind
  counter_grows_try counter_grows_llm_invoke counter_grows_search_news : grows.

(** Whatever the turn, [process_request] never lowers a field of the
    accumulator when the chat model reports non-negative counts. *)
Lemma counter_grows_process_request (user_input : pystr) :
  llm_reports_nonneg llm -> counter_grows (process_request user_input).
Proof.
  intros Hnn.
  destruct (selects_total (str_lower user_input)) as [i Hi].
  rewrite (process_request_handler _ _ Hi).
  destruct i; cbv beta iota zeta delta
    [Agent.handler Agent.sentiment_branch Agent.search_branch Agent.general_branch
     Agent.analyze_sentiment].
  - destruct (length (text_to_analyze user_input) <? 20)%nat; auto 8 with grows.
  - apply counter_grows_bind; [auto with grows | intros results].
    destruct (startswith results (utf8 "ERRO")); auto 8 with grows.
  - auto 8 with grows.
Qed.

(** *** The sentiment branch *)

(** C4: for an input routed to SentimentAnalysis whose text, once the
    trigger words and colons are removed and the ends stripped, is shorter
    than 20 characters, [process_request] returns the fixed message asking
    for the text, and leaves the world as it was: no call of the chat model
    is made. *)
Theorem short_text_asks_for_more (user_input : pystr) (w : World) :
  selects (str_lower user_input) SentimentAnalysis ->
  (length (text_to_analyze user_input) < 20)%nat ->
  process_request user_input w = (Return need_text_message, w) /\
  llm_log (snd (process_request user_input w)) = llm_log w.
Proof.
  intros Hsel Hlen. rewrite (process_request_handler _ _ Hsel).
  cbv beta iota zeta delta [Agent.handler Agent.sentiment_branch].
  apply Nat.ltb_lt in Hlen. rewrite Hlen. split; reflexivity.
Qed.

(** C9: with a deterministic chat model (the same prompt yields the same
    reply), two runs of the sentiment handler on the same text return the
    same output, whatever the worlds they start in; in particular when the
    second run starts where the first one ended. The same holds for the
    sentiment branch of [process_request]. *)
Theorem sentiment_runs_agree (text : pystr) (w1 w2 : World) :
  deterministic_llm llm ->
  fst (analyze_sentiment text w1) = fst (analyze_sentiment text w2) /\
  fst (analyze_sentiment text (snd (analyze_sentiment text w1)))
  = fst (analyze_sentiment text w1) /\
  fst (sentiment_branch text w1) = fst (sentiment_branch text w2).
Proof.
  intros Hdet.
  assert (H : forall t a b, fst (analyze_sentiment t a) = fst (analyze_sentiment t b)).
  { intros t a b. run. rewrite (Hdet (llm_log a) (llm_log b)).
    destruct (llm (llm_log b) (sentiment_prompt_of_text t)); reflexivity. }
  split; [apply H |]. split; [apply H |].
  cbv beta iota zeta delta [Agent.sentiment_branch].
  destruct (length (text_to_analyze text) <? 20)%nat; [reflexivity |].
  cbv beta iota delta [bind ret].
  specialize (H (text_to_analyze text) w1 w2).
  destruct (analyze_sentiment (text_to_analyze text) w1) as [[r1|e1] s1],
           (analyze_sentiment (text_to_analyze text) w2) as [[r2|e2] s2];
    cbn [fst] in *; congruence.
Qed.

(** *** The search branch *)

(** C7: for an input routed to NewsSearch, when the search credential
    [TAVILY_API_KEY] is absent from the environment (or empty),
    [process_request] returns the configuration-error message and leaves the
    world as it was: neither the search tool nor the chat model is called. *)
Theorem missing_credential_reported (user_input : pystr) (w : World) :
  selects (str_lower user_input) NewsSearch ->
  no_search_credential w ->
  process_request user_input w = (Return no_credential_message, w) /\
  search_log (snd (process_request user_input w)) = search_log w /\
  llm_log (snd (process_request user_input w)) = llm_log w.
Proof.
  intros Hsel Hno. rewrite (process_request_handler _ _ Hsel).
  cbv beta iota zeta delta [Agent.handler Agent.search_branch bind].
  rewrite (search_news_no_credential user_input w Hno).
  change (startswith no_credential_message (utf8 "ERRO")) with true.
  repeat split.
Qed.

(** The search step on an empty result list: [search_news] returns exactly
    "Nenhuma notícia encontrada para este tópico.", having called the search
    tool once. *)
Theorem search_news_no_results (query : pystr) (w : World) (api_key : pystr) :
  environ w !! TAVILY_API_KEY = Some api_key -> api_key <> [] ->
  tavily (search_log w) api_key query = SearchReturn (ResultList []) ->
  search_news query w = (Return no_news_message, log_search query w) /\
  llm_log (snd (search_news query w)) = llm_log w.
Proof.
  intros Hkey Hne Hempty. split; [| apply search_news_llm_log].
  now rewrite (search_news_with_credential query w api_key Hkey Hne), Hempty.
Qed.

(** C3: for an input routed to NewsSearch, when an API call of the pipeline
    fails (the search, the summarization call or the sentiment call),
    [process_request] returns exactly the program's error label followed by
    the message of the failure: a string that starts with "ERRO" and
    carries neither the search results nor the summary computed before. *)
Theorem pipeline_failure_reported (user_input : pystr) (w : World) (label e : pystr) :
  selects (str_lower user_input) NewsSearch ->
  PipelineFailure w user_input label e ->
  fst (process_request user_input w) = Return (label ++ e) /\
  startswith (label ++ e) (utf8 "ERRO") = true.
Proof.
  intros Hsel Hfail. rewrite (process_request_handler _ _ Hsel).
  cbv beta iota zeta delta [Agent.handler Agent.search_branch].
  destruct Hfail as [key e Hkey Hne Hs | key c text Hkey Hne Hs
                    | results w1 e Hs Hok Hllm
                    | results w1 summary response e Hs Hok Hllm1 Hllm2].
  - split; [| now apply startswith_literal].
    cbv beta iota delta [bind].
    rewrite (search_news_with_credential user_input w key Hkey Hne), Hs.
    rewrite (startswith_literal (utf8 "ERRO ao buscar notícias: ") e (utf8 "ERRO") eq_refl).
    reflexivity.
  - split; [| reflexivity].
    cbv beta iota delta [bind].
    rewrite (search_news_with_credential user_input w key Hkey Hne), Hs.
    reflexivity.
  - split; [| now apply startswith_literal].
    cbv beta iota delta [bind try_except]. rewrite Hs, Hok.
    rewrite llm_invoke_run, Hllm. reflexivity.
  - split; [| now apply startswith_literal].
    cbv beta iota delta [bind try_except]. rewrite Hs, Hok.
    rewrite llm_invoke_run, Hllm1. rewrite llm_invoke_run.
    cbn [log_llm set_token_counter llm_log]. rewrite Hllm2.
    reflexivity.
Qed.

(** C10: the sentiment path strips its trigger words by literal,
    case-sensitive substring replacement on the input as typed, and removes
    every colon. (1) No colon is left. (2) A text in which none of the seven
    words and no colon occurs, code point for code point, is only stripped
    at its ends. (3) An occurrence of a trigger word is removed whatever
    surrounds it, also inside a longer word (provided no earlier word of the
    list occurs and the occurrence is the leftmost). (4) So, for an input
    routed to SentimentAnalysis in which the trigger words occur only in
    another case, all characters count toward the threshold of 20.
    (5) "ANALISE O SENTIMENTO", routed to SentimentAnalysis by its lowercase
    form, is kept whole, has 20 characters and is sent to the chat model,
    while "analise o sentimento" is reduced to "o" and answered with the
    request for more text. *)
Theorem trigger_stripping_is_literal :
  lower_agrees_on_latin1 str_lower ->
  (forall user_input, ~ In 58 (text_to_analyze user_input)) /\
  (forall user_input,
     (forall v, In v trigger_words -> ~ occurs_in v user_input) ->
     ~ occurs_in (utf8 ":") user_input ->
     text_to_analyze user_input = strip user_input) /\
  (forall before word after a b,
     trigger_words = before ++ word :: after ->
     (forall v, In v before -> ~ occurs_in v (a ++ word ++ b)) ->
     (forall pre post, a ++ word ++ b = pre ++ word ++ post ->
                       (length a <= length pre)%nat) ->
     (forall v, In v trigger_words -> ~ occurs_in v (a ++ b)) ->
     ~ occurs_in (utf8 ":") (a ++ b) ->
     text_to_analyze (a ++ word ++ b) = strip (a ++ b)) /\
  (forall user_input w,
     selects (str_lower user_input) SentimentAnalysis ->
     (forall v, In v trigger_words -> ~ occurs_in v user_input) ->
     ~ occurs_in (utf8 ":") user_input ->
     process_request user_input w
     = if (length (strip user_input) <? 20)%nat
       then (Return need_text_message, w)
       else analyze_sentiment (strip user_input) w) /\
  (let shouted := utf8 "ANALISE O SENTIMENTO" in
   selects (str_lower shouted) SentimentAnalysis /\
   text_to_analyze shouted = shouted /\
   length (text_to_analyze shouted) = 20%nat /\
   (forall w, process_request shouted w = analyze_sentiment shouted w) /\
   text_to_analyze (utf8 "analise o sentimento") = utf8 "o" /\
   (forall w, process_request (utf8 "analise o sentimento") w
              = (Return need_text_message, w))).
Proof.
  intros Hlower.
  assert (Hlow : forall s, forallb (fun c => c <? 256) s = true ->
                           str_lower s = lower_l1 s).
  { intros s Hs. apply Hlower. apply Forall_forall. intros c Hc.
    rewrite forallb_forall in Hs. apply N.ltb_lt, Hs. now apply list_elem_of_In. }
  assert (Hbranch : forall user_input w,
             selects (str_lower user_input) SentimentAnalysis ->
             process_request user_input w
             = if (length (text_to_analyze user_input) <? 20)%nat
               then (Return need_text_message, w)
               else analyze_sentiment (text_to_analyze user_input) w).
  { intros user_input w Hsel. rewrite (process_request_handler _ _ Hsel).
    cbv beta iota zeta delta [Agent.handler Agent.sentiment_branch].
    destruct (length (text_to_analyze user_input) <? 20)%nat; [reflexivity |].
    apply bind_ret_run. }
  split; [apply text_to_analyze_no_colon |].
  split; [apply text_to_analyze_untouched |].
  split; [apply text_to_analyze_embedded |].
  split.
  { intros user_input w Hsel Hw Hc. rewrite (Hbranch _ _ Hsel).
    now rewrite (text_to_analyze_untouched user_input Hw Hc). }
  cbv zeta.
  assert (Hup : selects (str_lower (utf8 "ANALISE O SENTIMENTO")) SentimentAnalysis).
  { rewrite Hlow by (vm_compute; reflexivity).
    apply sentiment_condition. vm_compute. reflexivity. }
  assert (Hdown : selects (str_lower (utf8 "analise o sentimento")) SentimentAnalysis).
  { rewrite Hlow by (vm_compute; reflexivity).
    apply sentiment_condition. vm_compute. reflexivity. }
  assert (Ekeep : text_to_analyze (utf8 "ANALISE O SENTIMENTO")
                  = utf8 "ANALISE O SENTIMENTO") by (vm_compute; reflexivity).
  assert (Estrip : text_to_analyze (utf8 "analise o sentimento") = utf8 "o")
    by (vm_compute; reflexivity).
  split; [exact Hup |]. split; [exact Ekeep |].
  split; [rewrite Ekeep; vm_compute; reflexivity |].
  split; [intros w; rewrite (Hbranch _ w Hup), Ekeep; reflexivity |].
  split; [exact Estrip |].
  intros w. rewrite (Hbranch _ w Hdown), Estrip. reflexivity.
Qed.

End Facts.

(** *** The theorems at concrete turns *)

Ltac selects_sentiment := apply sentiment_condition; vm_compute; reflexivity.

Ltac selects_search :=
  split;
  [ let H := fresh in
    intros H; apply sentiment_condition in H; vm_compute in H; discriminate H
  | apply search_condition; vm_compute; reflexivity ].

Lemma router_priority_order_witness :
  Agent.process_request lower_l1 (mock_llm (utf8 "ok")) empty_search
    (utf8 "Busque notícias sobre economia")
  = Agent.search_branch (mock_llm (utf8 "ok")) empty_search
      (utf8 "Busque notícias sobre economia").
Proof.
  apply (proj1 (proj2 (router_priority_order lower_l1 (mock_llm (utf8 "ok")) empty_search
                         (utf8 "Busque notícias sobre economia"))) NewsSearch).
  selects_search.
Defined.

Lemma short_text_asks_for_more_witness :
  Agent.process_request lower_l1 (mock_llm (utf8 "ok")) empty_search
    (utf8 "Analise o sentimento: bom dia") configured_world
  = (Return need_text_message, configured_world).
Proof.
  apply (short_text_asks_for_more lower_l1 (mock_llm (utf8 "ok")) empty_search
           (utf8 "Analise o sentimento: bom dia") configured_world).
  - selects_sentiment.
  - vm_compute. lia.
Defined.

Lemma sentiment_runs_agree_witness :
  fst (Agent.analyze_sentiment (mock_llm (utf8 " Sentimento: POSITIVO "))
         (utf8 "A economia cresceu acima do esperado")
         (snd (Agent.analyze_sentiment (mock_llm (utf8 " Sentimento: POSITIVO "))
                 (utf8 "A economia cresceu acima do esperado") configured_world)))
  = fst (Agent.analyze_sentiment (mock_llm (utf8 " Sentimento: POSITIVO "))
           (utf8 "A economia cresceu acima do esperado") configured_world).
Proof.
  apply (sentiment_runs_agree (mock_llm (utf8 " Sentimento: POSITIVO "))
           (utf8 "A economia cresceu acima do esperado")
           configured_world configured_world).
  intros log1 log2 prompt. reflexivity.
Defined.

Lemma missing_credential_reported_witness :
  Agent.process_request lower_l1 (mock_llm (utf8 "ok")) empty_search
    (utf8 "Busque notícias sobre economia") (fresh_world ∅)
  = (Return no_credential_message, fresh_world ∅).
Proof.
  apply (missing_credential_reported lower_l1 (mock_llm (utf8 "ok")) empty_search
           (utf8 "Busque notícias sobre economia") (fresh_world ∅)).
  - selects_search.
  - left. apply lookup_empty.
Defined.

Lemma search_news_no_results_witness :
  Agent.search_news empty_search (utf8 "Busque notícias sobre economia") configured_world
  = (Return no_news_message,
     log_search (utf8 "Busque notícias sobre economia") configured_world).
Proof.
  apply (search_news_no_results empty_search (utf8 "Busque notícias sobre economia")
           configured_world (utf8 "tvly-key")).
  - apply lookup_singleton_eq.
  - discriminate.
  - reflexivity.
Defined.

Lemma pipeline_failure_reported_witness :
  fst (Agent.process_request lower_l1 (failing_llm (utf8 "503")) empty_search
         (utf8 "Busque notícias sobre economia") configured_world)
  = Return (utf8 "ERRO ao processar resultados: 503").
Proof.
  apply (pipeline_failure_reported lower_l1 (failing_llm (utf8 "503")) empty_search
           (utf8 "Busque notícias sobre economia") configured_world
           (utf8 "ERRO ao processar resultados: ") (utf8 "503")).
  - selects_search.
  - apply (summary_raises _ _ _ _ no_news_message
             (log_search (utf8 "Busque notícias sobre economia") configured_world)).
    + rewrite (search_news_with_credential empty_search _ configured_world
                 (utf8 "tvly-key"));
        [reflexivity | apply lookup_singleton_eq | discriminate].
    + vm_compute. reflexivity.
    + reflexivity.
Defined.

Lemma trigger_stripping_is_literal_witness :
  text_to_analyze (utf8 "ANALISE O SENTIMENTO") = utf8 "ANALISE O SENTIMENTO" /\
  text_to_analyze (utf8 "analise o sentimento") = utf8 "o".
Proof.
  pose proof (trigger_stripping_is_literal lower_l1 (mock_llm (utf8 "ok")) empty_search)
    as H.
  assert (Hl : lower_agrees_on_latin1 lower_l1) by (intros s _; reflexivity).
  specialize (H Hl). cbv zeta in H.
  destruct H as (_ & _ & _ & _ & _ & Hkeep & _ & _ & Hstrip & _).
  split; [exact Hkeep | exact Hstrip].
Defined.

(** C1: the program at the turn of the claim. In the turn
    "Busque notícias sobre economia" with a search that returns the empty
    list, [search_news] builds the finished no-news sentence, but
    [process_request] returns early only for a text that starts with "ERRO":
    the sentence is placed in the summarization prompt, the chat model is
    called twice, and what is returned is the summary and sentiment block,
    not the no-news message. *)
Lemma no_results_turn_calls_the_llm :
  let user_input := utf8 "Busque notícias sobre economia" in
  let turn :=
    Agent.process_request lower_l1 (mock_llm (utf8 "ok")) empty_search
      user_input configured_world in
  selects (lower_l1 user_input) NewsSearch /\
  empty_search (search_log configured_world) (utf8 "tvly-key") user_input
  = SearchReturn (ResultList []) /\
  fst turn = Return (summary_report (utf8 "ok") (utf8 "ok")) /\
  fst turn <> Return no_news_message /\
  llm_log (snd turn)
  = [sentiment_prompt (utf8 "ok"); summary_prompt no_news_message].
Proof.
  cbv zeta. split; [selects_search |]. split; [reflexivity |].
  assert (E : Agent.process_request lower_l1 (mock_llm (utf8 "ok")) empty_search
                (utf8 "Busque notícias sobre economia") configured_world
              = (Return (summary_report (utf8 "ok") (utf8 "ok")),
                 log_llm (sentiment_prompt (utf8 "ok"))
                   (log_llm (summary_prompt no_news_message)
                      (log_search (utf8 "Busque notícias sobre economia")
                         configured_world)))).
  { vm_compute. reflexivity. }
  rewrite E. split; [reflexivity |]. split; [| reflexivity].
  cbn [fst]. intros H. injection H as H. vm_compute in H. discriminate.
Qed.

End AgentFacts.

(** ** More on Python strings *)

Module PyStrMore.
Import PyStr PyStrFacts.

Lemma lstrip_length (s : pystr) : (length (lstrip s) <= length s)%nat.
Proof.
  induction s as [|c s IH]; cbn [lstrip]; [lia |].
  destruct (isspace c); cbn [length]; lia.
Qed.

Lemma strip_length (s : pystr) : (length (strip s) <= length s)%nat.
Proof.
  unfold strip, rstrip. rewrite length_rev.
  etransitivity; [apply lstrip_length |]. rewrite length_rev. apply lstrip_length.
Qed.

Lemma replace_scan_length (old : pystr) (k : nat) (s : pystr) :
  (length (replace_scan old [] k s) <= length s)%nat.
Proof.
  revert k. induction s as [|c s IH]; intros k; cbn [replace_scan length]; [lia |].
  destruct k as [|k].
  - destruct (startswith (c :: s) old); cbn [app length].
    + specialize (IH (Nat.pred (length old))). lia.
    + specialize (IH 0%nat). lia.
  - specialize (IH k). lia.
Qed.

(** Deleting occurrences never lengthens a text. *)
Lemma replace_delete_length (s old : pystr) :
  (length (replace s old []) <= length s)%nat.
Proof.
  unfold replace. destruct old as [|o old]; [| apply replace_scan_length].
  cbn [app]. induction s as [|c s IH]; cbn [flat_map app length]; lia.
Qed.

(** What [lstrip] returns is empty or starts with a character that is not
    white space. *)
Lemma lstrip_head (s : pystr) :
  lstrip s = [] \/ exists c t, lstrip s = c :: t /\ isspace c = false.
Proof.
  induction s as [|c s IH]; cbn [lstrip]; [now left |].
  destruct (isspace c) eqn:E; [exact IH | right; eauto].
Qed.

Lemma lstrip_nonspace (c : N) (t : pystr) :
  isspace c = false -> lstrip (c :: t) = c :: t.
Proof. intros E. cbn [lstrip]. now rewrite E. Qed.

Lemma lstrip_idempotent (s : pystr) : lstrip (lstrip s) = lstrip s.
Proof.
  destruct (lstrip_head s) as [-> | (c & t & -> & E)]; [reflexivity |].
  now apply lstrip_nonspace.
Qed.

Lemma lstrip_keeps_last (l : pystr) (c : N) :
  isspace c = false -> exists u, lstrip (l ++ [c]) = u ++ [c].
Proof.
  intros E. induction l as [|d l IH]; cbn [app lstrip].
  - rewrite E. now exists [].
  - destruct (isspace d); [exact IH | now exists (d :: l)].
Qed.

Lemma rstrip_idempotent (s : pystr) : rstrip (rstrip s) = rstrip s.
Proof. unfold rstrip. now rewrite rev_involutive, lstrip_idempotent. Qed.

Lemma lstrip_rstrip_lstrip (s : pystr) :
  lstrip (rstrip (lstrip s)) = rstrip (lstrip s).
Proof.
  destruct (lstrip_head s) as [-> | (c & t & -> & E)]; [reflexivity |].
  unfold rstrip. cbn [rev].
  destruct (lstrip_keeps_last (rev t) c E) as [u ->].
  rewrite rev_app_distr. cbn [rev app]. now apply lstrip_nonspace.
Qed.

(** [strip] leaves nothing more to strip. *)
Lemma strip_idempotent (s : pystr) : strip (strip s) = strip s.
Proof.
  unfold strip. now rewrite lstrip_rstrip_lstrip, rstrip_idempotent.
Qed.

Lemma strip_nil : strip [] = [].
Proof. reflexivity. Qed.

End PyStrMore.

(** ** Effects of a turn *)

Module TurnFacts.
Import Py PyStr PyStrFacts TokenCounter Agent Effects AgentFacts.

Lemma never_raises_ret {A} (a : A) : never_raises (ret a).
Proof. intros w. now exists a. Qed.

Lemma never_raises_bind {A B} (m : M World A) (k : A -> M World B) :
  never_raises m -> (forall a, never_raises (k a)) -> never_raises (bind m k).
Proof.
  intros Hm Hk w. unfold bind. destruct (Hm w) as [a Ha].
  destruct (m w) as [[a'|e] w1]; cbn [fst] in Ha; [| discriminate].
  apply Hk.
Qed.

(** A [try] whose handler returns lets no exception out. *)
Lemma never_raises_try {A} (body : M World A) (handle : pystr -> M World A) :
  (forall e, never_raises (handle e)) -> never_raises (try_except body handle).
Proof.
  intros Hh w. unfold try_except.
  destruct (body w) as [[a|e] w1]; [now exists a | apply Hh].
Qed.

Lemma calls_between_refl (w : World) (n k : nat) : calls_between w w n k.
Proof.
  split; [reflexivity |]. split; exists []; split; try reflexivity; cbn; lia.
Qed.

Lemma calls_between_trans (w1 w2 w3 : World) (n k n' k' : nat) :
  calls_between w1 w2 n k -> calls_between w2 w3 n' k' ->
  calls_between w1 w3 (n + n') (k + k').
Proof.
  intros (E1 & (q1 & S1 & L1) & (p1 & C1 & M1)) (E2 & (q2 & S2 & L2) & (p2 & C2 & M2)).
  split; [congruence |]. split.
  - exists (q2 ++ q1). rewrite S2, S1, app_assoc, length_app. split; [reflexivity | lia].
  - exists (p2 ++ p1). rewrite C2, C1, app_assoc, length_app. split; [reflexivity | lia].
Qed.

Lemma calls_between_weaken (w w' : World) (n k n' k' : nat) :
  (n <= n')%nat -> (k <= k')%nat ->
  calls_between w w' n k -> calls_between w w' n' k'.
Proof.
  intros Hn Hk (E & (q & S & L) & (p & C & M)).
  split; [exact E |]. split; [exists q | exists p]; split; trivial; lia.
Qed.

Lemma makes_calls_ret {A} (a : A) : makes_calls (ret a) 0 0.
Proof. intros w. apply calls_between_refl. Qed.

Lemma makes_calls_weaken {A} (m : M World A) (n k n' k' : nat) :
  (n <= n')%nat -> (k <= k')%nat -> makes_calls m n k -> makes_calls m n' k'.
Proof. intros Hn Hk H w. eapply calls_between_weaken; eauto. Qed.

Lemma makes_calls_bind {A B} (m : M World A) (f : A -> M World B) (n k n' k' : nat) :
  makes_calls m n k -> (forall a, makes_calls (f a) n' k') ->
  makes_calls (bind m f) (n + n') (k + k').
Proof.
  intros Hm Hf w. unfold bind. specialize (Hm w).
  destruct (m w) as [[a|e] w1]; cbn [snd] in *.
  - eapply calls_between_trans; [exact Hm | apply Hf].
  - eapply calls_between_weaken; [| | exact Hm]; lia.
Qed.

Lemma makes_calls_try {A} (body : M World A) (handle : pystr -> M World A)
    (n k : nat) :
  makes_calls body n k -> (forall e, makes_calls (handle e) 0 0) ->
  makes_calls (try_except body handle) n k.
Proof.
  intros Hm Hh w. unfold try_except. specialize (Hm w).
  destruct (body w) as [[a|e] w1]; cbn [snd] in *; [exact Hm |].
  replace n with (n + 0)%nat by lia. replace k with (k + 0)%nat by lia.
  eapply calls_between_trans; [exact Hm | apply Hh].
Qed.

Section Facts.

Variable str_lower : pystr -> pystr.
Variable llm : list pystr -> pystr -> LLMReply.
Variable tavily : list pystr -> pystr -> pystr -> SearchReply.

Local Abbreviation llm_invoke := (Agent.llm_invoke llm).
Local Abbreviation search_news := (Agent.search_news tavily).
Local Abbreviation analyze_sentiment := (Agent.analyze_sentiment llm).
Local Abbreviation process_request := (Agent.process_request str_lower llm tavily).
Local Abbreviation handler := (Agent.handler llm tavily).

Lemma makes_calls_llm_invoke (prompt : pystr) : makes_calls (llm_invoke prompt) 0 1.
Proof.
  intros w. rewrite (llm_invoke_run llm).
  assert (H : calls_between w (log_llm prompt w) 0 1).
  { split; [reflexivity |]. split; [exists [] | exists [prompt]];
      split; try reflexivity; cbn; lia. }
  destruct (llm (llm_log w) prompt); exact H.
Qed.

Lemma makes_calls_search_news (query : pystr) : makes_calls (search_news query) 1 0.
Proof.
  intros w.
  assert (H : calls_between w (log_search query w) 1 0).
  { split; [reflexivity |]. split; [exists [query] | exists []];
      split; try reflexivity; cbn; lia. }
  destruct (environ w !! TAVILY_API_KEY) as [[|c key]|] eqn:E.
  - rewrite (search_news_no_credential tavily) by (now right). apply calls_between_refl.
  - rewrite (search_news_with_credential tavily query w (c :: key) E) by discriminate.
    exact H.
  - rewrite (search_news_no_credential tavily) by (now left). apply calls_between_refl.
Qed.

Lemma never_raises_search_news (query : pystr) : never_raises (search_news query).
Proof. apply never_raises_try. intros e. apply never_raises_ret. Qed.

Create HintDb turn.
#[local] Hint Resolve never_raises_ret never_raises_bind never_raises_try
  never_raises_search_news : turn.

Lemma never_raises_handler (i : Intent) (user_input : pystr) :
  never_raises (handler i user_input).
Proof.
  destruct i; cbv beta iota zeta delta
    [Agent.handler Agent.sentiment_branch Agent.search_branch Agent.general_branch
     Agent.analyze_sentiment].
  - destruct (length (text_to_analyze user_input) <? 20)%nat; auto 6 with turn.
  - apply never_raises_bind; [auto with turn | intros results].
    destruct (startswith results (utf8 "ERRO")); auto 6 with turn.
  - auto 6 with turn.
Qed.

Lemma makes_calls_handler (i : Intent) (user_input : pystr) :
  makes_calls (handler i user_input) (search_bound i) (chat_bound i).
Proof.
  destruct i; cbv beta iota zeta delta
    [Agent.handler Agent.sentiment_branch Agent.search_branch Agent.general_branch
     Agent.analyze_sentiment search_bound chat_bound].
  - destruct (length (text_to_analyze user_input) <? 20)%nat.
    + apply (makes_calls_weaken _ 0 0); [lia | lia | apply makes_calls_ret].
    + apply (makes_calls_bind _ _ 0 1 0 0); [| intros; apply makes_calls_ret].
      apply makes_calls_try; [| intros; apply makes_calls_ret].
      apply (makes_calls_bind _ _ 0 1 0 0); [apply makes_calls_llm_invoke |].
      intros; apply makes_calls_ret.
  - apply (makes_calls_bind _ _ 1 0 0 2); [apply makes_calls_search_news |].
    intros results. destruct (startswith results (utf8 "ERRO")).
    + apply (makes_calls_weaken _ 0 0); [lia | lia | apply makes_calls_ret].
    + apply makes_calls_try; [| intros; apply makes_calls_ret].
      apply (makes_calls_bind _ _ 0 1 0 1); [apply makes_calls_llm_invoke |].
      intros summary.
      apply (makes_calls_bind _ _ 0 1 0 0); [apply makes_calls_llm_invoke |].
      intros; apply makes_calls_ret.
  - apply makes_calls_try; [| intros; apply makes_calls_ret].
    apply (makes_calls_bind _ _ 0 1 0 0); [apply makes_calls_llm_invoke |].
    intros; apply makes_calls_ret.
Qed.

(** X1: [process_request] lets no exception out: whatever the input, the
    environment and the behaviour of the two collaborators, it returns a
    text. *)
Theorem process_request_never_raises (user_input : pystr) :
  never_raises (process_request user_input).
Proof.
  destruct (selects_total (str_lower user_input)) as [i Hi].
  rewrite (process_request_handler str_lower llm tavily _ _ Hi).
  apply never_raises_handler.
Qed.

(** X2: a turn leaves the environment as it is, keeps the calls logged
    before, and sends at most one query to the search tool and two prompts
    to the chat model; a turn routed to SentimentAnalysis or GeneralQuery
    sends no query and at most one prompt. *)
Theorem turn_call_bounds (user_input : pystr) (w : World) :
  calls_between w (snd (process_request user_input w)) 1 2 /\
  (forall i, selects (str_lower user_input) i ->
             calls_between w (snd (process_request user_input w))
                           (search_bound i) (chat_bound i)).
Proof.
  assert (H : forall i, selects (str_lower user_input) i ->
                        calls_between w (snd (process_request user_input w))
                                      (search_bound i) (chat_bound i)).
  { intros i Hi. rewrite (process_request_handler str_lower llm tavily _ _ Hi).
    apply makes_calls_handler. }
  split; [| exact H].
  destruct (selects_total (str_lower user_input)) as [i Hi].
  eapply calls_between_weaken; [| | exact (H i Hi)]; destruct i; cbn; lia.
Qed.

(** X3: the search step lets no exception out, never calls the chat model,
    leaves the accumulator alone and sends at most one query. *)
Theorem search_news_effects (query : pystr) (w : World) :
  (exists text, fst (search_news query w) = Return text) /\
  calls_between w (snd (search_news query w)) 1 0 /\
  token_counter (snd (search_news query w)) = token_counter w.
Proof.
  split; [apply never_raises_search_news |]. split; [apply makes_calls_search_news |].
  destruct (environ w !! TAVILY_API_KEY) as [[|c key]|] eqn:E.
  - now rewrite (search_news_no_credential tavily) by (now right).
  - now rewrite (search_news_with_credential tavily query w (c :: key) E).
  - now rewrite (search_news_no_credential tavily) by (now left).
Qed.

Lemma formatted_results_start (r : gmap pystr pystr) (rs : list (gmap pystr pystr)) :
  exists t, join (utf8 "

") (map format_result (enumerate 1 (r :: rs))) = utf8 "1. " ++ t.
Proof.
  cbn [enumerate map]. unfold format_result at 1.
  generalize (default (utf8 "Sem título") (r !! utf8 "title")) as title.
  generalize (default (utf8 "Sem conteúdo") (r !! utf8 "content")) as content.
  generalize (default [] (r !! utf8 "url")) as url.
  generalize (map format_result (enumerate (1 + 1) rs)) as rest.
  intros [|p rest] url content title; cbn [join]; eexists; rewrite <- ?app_assoc;
    reflexivity.
Qed.

(** X4: when the search tool returns at least one record, the search step
    returns the numbered list of the records: a text that starts with "1. "
    and so never starts with "ERRO": found results are never taken for an
    error by [process_request]. *)
Theorem found_results_are_not_errors (query : pystr) (w : World) (api_key : pystr)
    (r : gmap pystr pystr) (rs : list (gmap pystr pystr)) :
  environ w !! TAVILY_API_KEY = Some api_key -> api_key <> [] ->
  tavily (search_log w) api_key query = SearchReturn (ResultList (r :: rs)) ->
  exists text,
    search_news query w = (Return text, log_search query w) /\
    text = join (utf8 "

") (map format_result (enumerate 1 (r :: rs))) /\
    startswith text (utf8 "1. ") = true /\
    startswith text (utf8 "ERRO") = false.
Proof.
  intros Hkey Hne Hs. eexists. split; [| split; [reflexivity |]].
  - now rewrite (search_news_with_credential tavily query w api_key Hkey Hne), Hs.
  - destruct (formatted_results_start r rs) as [t ->]. split; reflexivity.
Qed.

(** X5: in a turn routed to NewsSearch, the chat model is left uncalled
    exactly when the text of the search step starts with "ERRO"; that text
    is then the answer of the turn. *)
Theorem news_turn_calls_llm_unless_error (user_input : pystr) (w : World)
    (text : pystr) (w1 : World) :
  selects (str_lower user_input) NewsSearch ->
  search_news user_input w = (Return text, w1) ->
  (startswith text (utf8 "ERRO") = true <->
   llm_log (snd (process_request user_input w)) = llm_log w) /\
  (startswith text (utf8 "ERRO") = true ->
   process_request user_input w = (Return text, w1)).
Proof.
  intros Hsel Hs.
  pose proof (search_news_llm_log tavily user_input w) as Hlog.
  rewrite Hs in Hlog. cbn [snd] in Hlog.
  rewrite (process_request_handler str_lower llm tavily _ _ Hsel).
  cbv beta iota zeta delta [Agent.handler Agent.search_branch].
  cbv beta iota delta [bind try_except]. rewrite Hs.
  destruct (startswith text (utf8 "ERRO")) eqn:E.
  - cbv beta iota delta [ret]. cbn [snd]. split; [| reflexivity].
    split; [intros _; exact Hlog | reflexivity].
  - split; [| discriminate]. split; [discriminate | intros H; exfalso].
    rewrite (llm_invoke_run llm) in H.
    assert (Hlen : forall (w3 : World) ps,
               llm_log w3 = ps ++ summary_prompt text :: llm_log w1 ->
               llm_log w3 <> llm_log w).
    { intros w3 ps Hps Heq. rewrite Hps, Hlog in Heq.
      apply (f_equal length) in Heq. rewrite length_app in Heq.
      cbn [length] in Heq. lia. }
    destruct (llm (llm_log w1) (summary_prompt text)) as [e | summary response].
    + cbv beta iota delta [ret] in H. cbn [snd] in H.
      exact (Hlen (log_llm (summary_prompt text) w1) [] eq_refl H).
    + set (w2 := set_token_counter _ _) in H.
      pose proof (makes_calls_llm_invoke (sentiment_prompt summary) w2) as Hc.
      destruct (llm_invoke (sentiment_prompt summary) w2) as [[c|e] w3];
        cbv beta iota delta [ret] in H; cbn [snd] in H, Hc;
        destruct Hc as (_ & _ & (ps & Hps & _));
        exact (Hlen w3 ps Hps H).
Qed.

Lemma text_to_analyze_length (user_input : pystr) :
  (length (text_to_analyze user_input) <= length user_input)%nat.
Proof.
  unfold text_to_analyze.
  etransitivity; [apply PyStrMore.strip_length |].
  etransitivity; [apply PyStrMore.replace_delete_length |].
  generalize trigger_words as words. intros words. revert user_input.
  induction words as [|v words IH]; intros user_input; cbn [fold_left]; [lia |].
  etransitivity; [apply IH | apply PyStrMore.replace_delete_length].
Qed.

(** X6: a request routed to SentimentAnalysis that has fewer than 20
    characters in all is always answered with the request for more text,
    without any call: removing the trigger words and stripping can only
    shorten it. *)
Theorem short_sentiment_request_never_analyzed (user_input : pystr) (w : World) :
  selects (str_lower user_input) SentimentAnalysis ->
  (length user_input < 20)%nat ->
  process_request user_input w = (Return need_text_message, w).
Proof.
  intros Hsel Hlen. rewrite (process_request_handler str_lower llm tavily _ _ Hsel).
  cbv beta iota zeta delta [Agent.handler Agent.sentiment_branch].
  pose proof (text_to_analyze_length user_input) as Hle.
  assert (E : (length (text_to_analyze user_input) <? 20)%nat = true)
    by (apply Nat.ltb_lt; lia).
  now rewrite E.
Qed.

(** X7: a request routed to SentimentAnalysis whose stripped text has at
    least 20 characters sends exactly one prompt, built from the stripped
    text, and no query. When the chat model answers, the turn returns the
    answer stripped of surrounding white space (stripping it again changes
    nothing) and the accumulator takes the answer's usage; when the call
    fails, the turn returns "ERRO ao analisar sentimento: " and the
    failure's message, and the accumulator is unchanged. *)
Theorem sentiment_turn (user_input : pystr) (w : World) :
  selects (str_lower user_input) SentimentAnalysis ->
  (20 <= length (text_to_analyze user_input))%nat ->
  let prompt := sentiment_prompt_of_text (text_to_analyze user_input) in
  match llm (llm_log w) prompt with
  | LLMError e =>
      process_request user_input w
      = (Return (utf8 "ERRO ao analisar sentimento: " ++ e), log_llm prompt w)
  | LLMMessage content response =>
      process_request user_input w
      = (Return (strip content),
         set_token_counter (on_completions [response] (token_counter w))
                           (log_llm prompt w)) /\
      strip (strip content) = strip content
  end.
Proof.
  intros Hsel Hlen prompt. rewrite (process_request_handler str_lower llm tavily _ _ Hsel).
  cbv beta iota zeta delta [Agent.handler Agent.sentiment_branch].
  assert (E : (length (text_to_analyze user_input) <? 20)%nat = false)
    by (apply Nat.ltb_ge; lia).
  rewrite E, bind_ret_run.
  cbv beta iota zeta delta [Agent.analyze_sentiment try_except bind].
  rewrite (llm_invoke_run llm). fold prompt.
  destruct (llm (llm_log w) prompt) as [e | content response]; [reflexivity |].
  split; [reflexivity | apply PyStrMore.strip_idempotent].
Qed.

(** X8: a request routed to GeneralQuery sends exactly one prompt, the
    fixed template around the input as typed, and no query. When the chat
    model answers, the turn returns the answer unchanged (it is not
    stripped) and the accumulator takes the answer's usage; when the call
    fails, the turn returns "ERRO: " and the failure's message. *)
Theorem general_turn_outcome (user_input : pystr) (w : World) :
  selects (str_lower user_input) GeneralQuery ->
  let prompt := general_prompt user_input in
  process_request user_input w
  = match llm (llm_log w) prompt with
    | LLMError e => (Return (utf8 "ERRO: " ++ e), log_llm prompt w)
    | LLMMessage content response =>
        (Return content,
         set_token_counter (on_completions [response] (token_counter w))
                           (log_llm prompt w))
    end.
Proof.
  intros Hsel prompt. rewrite (process_request_handler str_lower llm tavily _ _ Hsel).
  cbv beta iota zeta delta [Agent.handler Agent.general_branch try_except bind].
  rewrite (llm_invoke_run llm). fold prompt.
  destruct (llm (llm_log w) prompt) as [e | content response]; reflexivity.
Qed.

(** X9: in a turn routed to NewsSearch whose search text is not an error
    and whose two calls succeed, the second prompt is built from the
    summary the first call returned (not from the search text), the answer
    is the summary, the separator block and the stripped sentiment, and the
    accumulator takes the usage of both answers, in order. *)
Theorem news_turn_success (user_input : pystr) (w : World) (results : pystr)
    (w1 : World) (summary sentiment : pystr) (r1 r2 : LLMResult) :
  selects (str_lower user_input) NewsSearch ->
  search_news user_input w = (Return results, w1) ->
  startswith results (utf8 "ERRO") = false ->
  llm (llm_log w1) (summary_prompt results) = LLMMessage summary r1 ->
  llm (summary_prompt results :: llm_log w1) (sentiment_prompt summary)
  = LLMMessage sentiment r2 ->
  let w2 := snd (process_request user_input w) in
  fst (process_request user_input w)
  = Return (summary_report summary (strip sentiment)) /\
  llm_log w2 = sentiment_prompt summary :: summary_prompt results :: llm_log w /\
  token_counter w2 = on_completions [r1; r2] (token_counter w) /\
  search_log w2 = search_log w1.
Proof.
  intros Hsel Hs Hok H1 H2.
  pose proof (search_news_llm_log tavily user_input w) as Hlog.
  pose proof (search_news_effects user_input w) as (_ & _ & Hcnt).
  rewrite Hs in Hlog, Hcnt. cbn [snd] in Hlog, Hcnt.
  rewrite (process_request_handler str_lower llm tavily _ _ Hsel).
  cbv beta iota zeta delta [Agent.handler Agent.search_branch].
  cbv beta iota delta [bind try_except]. rewrite Hs, Hok.
  rewrite (llm_invoke_run llm), H1. rewrite (llm_invoke_run llm).
  cbn [log_llm set_token_counter llm_log]. rewrite H2.
  cbv beta iota delta [ret].
  cbn [fst snd log_llm set_token_counter llm_log token_counter search_log
       on_completions fold_left].
  rewrite Hlog, Hcnt. repeat split.
Qed.

(** X23: in a turn routed to NewsSearch with a search credential, the one
    query sent to the search tool is the input as typed, trigger words
    included, whatever the search and the chat model then do. *)
Theorem news_turn_query_is_raw_input (user_input : pystr) (w : World) (api_key : pystr) :
  selects (str_lower user_input) NewsSearch ->
  environ w !! TAVILY_API_KEY = Some api_key -> api_key <> [] ->
  search_log (snd (process_request user_input w)) = user_input :: search_log w.
Proof.
  intros Hsel Hkey Hne.
  rewrite (process_request_handler str_lower llm tavily _ _ Hsel).
  cbv beta iota zeta delta [Agent.handler Agent.search_branch].
  cbv beta iota delta [bind try_except].
  rewrite (search_news_with_credential tavily user_input w api_key Hkey Hne).
  match goal with |- context [startswith ?text (utf8 "ERRO")] =>
    generalize text; intros results
  end.
  destruct (startswith results (utf8 "ERRO")); [reflexivity |].
  rewrite (llm_invoke_run llm).
  destruct (llm (llm_log (log_search user_input w)) (summary_prompt results))
    as [e | summary response]; [reflexivity |].
  rewrite (llm_invoke_run llm).
  match goal with |- context [llm ?log (sentiment_prompt summary)] =>
    destruct (llm log (sentiment_prompt summary)) as [e | sentiment response2]
  end; reflexivity.
Qed.

(** X10: when every answer of the chat model reports non-negative token
    counts, no turn lowers a field of the accumulator, whatever the input
    and whichever calls fail. *)
Theorem turn_accumulator_grows (user_input : pystr) (w : World) :
  llm_reports_nonneg llm ->
  counter_le (token_counter w) (token_counter (snd (process_request user_input w))).
Proof.
  intros Hnn. exact (counter_grows_process_request str_lower llm tavily user_input Hnn w).
Qed.

End Facts.

(** *** The theorems at concrete turns *)

Lemma turn_call_bounds_witness :
  calls_between configured_world
    (snd (Agent.process_request lower_l1 (mock_llm (utf8 "ok")) empty_search
            (utf8 "Quem é você?") configured_world)) 0 1.
Proof.
  apply (proj2 (turn_call_bounds lower_l1 (mock_llm (utf8 "ok")) empty_search
                  (utf8 "Quem é você?") configured_world) GeneralQuery).
  split; intros H;
    [apply sentiment_condition in H | apply search_condition in H];
    vm_compute in H; discriminate H.
Defined.

Lemma found_results_are_not_errors_witness :
  exists text,
    Agent.search_news Doubles.found_search (utf8 "Busque notícias sobre economia")
      configured_world
    = (Return text, log_search (utf8 "Busque notícias sobre economia") configured_world) /\
    text = join (utf8 "

") (map format_result
          (enumerate 1 ({[ utf8 "title" := utf8 "PIB cresce" ]} :: []))) /\
    startswith text (utf8 "1. ") = true /\
    startswith text (utf8 "ERRO") = false.
Proof.
  apply (found_results_are_not_errors Doubles.found_search
           (utf8 "Busque notícias sobre economia") configured_world (utf8 "tvly-key")).
  - apply lookup_singleton_eq.
  - discriminate.
  - reflexivity.
Defined.

Lemma configured_search_finds_nothing :
  Agent.search_news empty_search (utf8 "Busque notícias sobre economia") configured_world
  = (Return no_news_message,
     log_search (utf8 "Busque notícias sobre economia") configured_world).
Proof.
  rewrite (search_news_with_credential empty_search _ configured_world (utf8 "tvly-key"));
    [reflexivity | apply lookup_singleton_eq | discriminate].
Qed.

Lemma news_turn_calls_llm_unless_error_witness :
  (startswith no_news_message (utf8 "ERRO") = true <->
   llm_log (snd (Agent.process_request lower_l1 (mock_llm (utf8 "ok")) empty_search
                   (utf8 "Busque notícias sobre economia") configured_world))
   = llm_log configured_world) /\
  (startswith no_news_message (utf8 "ERRO") = true ->
   Agent.process_request lower_l1 (mock_llm (utf8 "ok")) empty_search
     (utf8 "Busque notícias sobre economia") configured_world
   = (Return no_news_message,
      log_search (utf8 "Busque notícias sobre economia") configured_world)).
Proof.
  apply (news_turn_calls_llm_unless_error lower_l1 (mock_llm (utf8 "ok")) empty_search
           (utf8 "Busque notícias sobre economia") configured_world).
  - selects_search.
  - apply configured_search_finds_nothing.
Defined.

Lemma short_sentiment_request_never_analyzed_witness :
  Agent.process_request lower_l1 (mock_llm (utf8 "ok")) empty_search
    (utf8 "SENTIMENTO bom") configured_world
  = (Return need_text_message, configured_world).
Proof.
  apply (short_sentiment_request_never_analyzed lower_l1 (mock_llm (utf8 "ok"))
           empty_search (utf8 "SENTIMENTO bom") configured_world).
  - selects_sentiment.
  - vm_compute. lia.
Defined.

Lemma sentiment_turn_witness :
  Agent.process_request lower_l1 (mock_llm (utf8 " Sentimento: POSITIVO ")) empty_search
    (utf8 "Analise o sentimento: O mercado subiu hoje com força") configured_world
  = (Return (strip (utf8 " Sentimento: POSITIVO ")),
     set_token_counter
       (on_completions [ {| llm_output := None |} ] (token_counter configured_world))
       (log_llm
          (sentiment_prompt_of_text
             (text_to_analyze (utf8 "Analise o sentimento: O mercado subiu hoje com força")))
          configured_world)) /\
  strip (strip (utf8 " Sentimento: POSITIVO ")) = strip (utf8 " Sentimento: POSITIVO ").
Proof.
  apply (sentiment_turn lower_l1 (mock_llm (utf8 " Sentimento: POSITIVO ")) empty_search
           (utf8 "Analise o sentimento: O mercado subiu hoje com força")
           configured_world).
  - selects_sentiment.
  - vm_compute. lia.
Defined.

Lemma general_turn_outcome_witness :
  Agent.process_request lower_l1 (failing_llm (utf8 "503")) empty_search
    (utf8 "Quem é você?") configured_world
  = (Return (utf8 "ERRO: " ++ utf8 "503"),
     log_llm (general_prompt (utf8 "Quem é você?")) configured_world).
Proof.
  apply (general_turn_outcome lower_l1 (failing_llm (utf8 "503")) empty_search
           (utf8 "Quem é você?") configured_world).
  split; intros H;
    [apply sentiment_condition in H | apply search_condition in H];
    vm_compute in H; discriminate H.
Defined.

Lemma news_turn_success_witness :
  fst (Agent.process_request lower_l1 (Doubles.metered_llm (utf8 " ok ") 3 4 7)
         empty_search (utf8 "Busque notícias sobre economia") configured_world)
  = Return (summary_report (utf8 " ok ") (strip (utf8 " ok "))) /\
  llm_log (snd (Agent.process_request lower_l1 (Doubles.metered_llm (utf8 " ok ") 3 4 7)
                  empty_search (utf8 "Busque notícias sobre economia") configured_world))
  = sentiment_prompt (utf8 " ok ") :: summary_prompt no_news_message
    :: llm_log configured_world /\
  token_counter
    (snd (Agent.process_request lower_l1 (Doubles.metered_llm (utf8 " ok ") 3 4 7)
            empty_search (utf8 "Busque notícias sobre economia") configured_world))
  = on_completions [usage_response 3 4 7; usage_response 3 4 7]
      (token_counter configured_world) /\
  search_log
    (snd (Agent.process_request lower_l1 (Doubles.metered_llm (utf8 " ok ") 3 4 7)
            empty_search (utf8 "Busque notícias sobre economia") configured_world))
  = search_log (log_search (utf8 "Busque notícias sobre economia") configured_world).
Proof.
  apply (news_turn_success lower_l1 (Doubles.metered_llm (utf8 " ok ") 3 4 7) empty_search
           (utf8 "Busque notícias sobre economia") configured_world no_news_message
           (log_search (utf8 "Busque notícias sobre economia") configured_world)
           (utf8 " ok ") (utf8 " ok ") (usage_response 3 4 7) (usage_response 3 4 7)).
  - selects_search.
  - apply configured_search_finds_nothing.
  - vm_compute. reflexivity.
  - reflexivity.
  - reflexivity.
Defined.

Lemma news_turn_query_is_raw_input_witness :
  search_log
    (snd (Agent.process_request lower_l1 (mock_llm (utf8 "ok")) Doubles.found_search
            (utf8 "Busque notícias sobre economia") configured_world))
  = utf8 "Busque notícias sobre economia" :: search_log configured_world.
Proof.
  apply (news_turn_query_is_raw_input lower_l1 (mock_llm (utf8 "ok")) Doubles.found_search
           (utf8 "Busque notícias sobre economia") configured_world (utf8 "tvly-key")).
  - selects_search.
  - apply lookup_singleton_eq.
  - discriminate.
Defined.

Lemma metered_llm_nonneg (answer : pystr) (p c t : Z) :
  (0 <= p)%Z -> (0 <= c)%Z -> (0 <= t)%Z ->
  llm_reports_nonneg (Doubles.metered_llm answer p c t).
Proof.
  intros Hp Hc Ht log prompt content response H. injection H as _ <-.
  now apply TokenCounterFacts.usage_response_nonneg.
Qed.

Lemma turn_accumulator_grows_witness :
  counter_le (token_counter configured_world)
    (token_counter
       (snd (Agent.process_request lower_l1 (Doubles.metered_llm (utf8 "ok") 3 4 7)
               empty_search (utf8 "Quem é você?") configured_world))).
Proof.
  apply (turn_accumulator_grows lower_l1 (Doubles.metered_llm (utf8 "ok") 3 4 7)
           empty_search (utf8 "Quem é você?") configured_world).
  apply metered_llm_nonneg; lia.
Defined.

End TurnFacts.

(** ** More on the token accumulator *)

Module TokenCounterMore.
Import Py PyStr PyStrFacts TokenCounter Effects TokenCounterFacts.

Ltac run_counter :=
  cbv beta iota zeta delta
    [on_llm_end add_counts add_field bind dict_get get modify int_add ret raise].

Lemma add_usage_comm (s : TokenCounterCallback) (p c t p' c' t' : Z) :
  add_usage (add_usage s p c t) p' c' t' = add_usage (add_usage s p' c' t') p c t.
Proof. rewrite !add_usage_add_usage. f_equal; lia. Qed.

Lemma add_usage_fields (s : TokenCounterCallback) :
  s = add_usage __init__ (prompt_tokens s) (completion_tokens s) (total_tokens s).
Proof. destruct s. reflexivity. Qed.

Lemma shift_invariant_ret {A} (a : A) : shift_invariant (ret a).
Proof. intros s p c t. reflexivity. Qed.

Lemma shift_invariant_raise {A} (e : pystr) :
  shift_invariant (@raise TokenCounterCallback A e).
Proof. intros s p c t. reflexivity. Qed.

Lemma shift_invariant_bind {A B} (m : M TokenCounterCallback A)
    (k : A -> M TokenCounterCallback B) :
  shift_invariant m -> (forall a, shift_invariant (k a)) ->
  shift_invariant (bind m k).
Proof.
  intros Hm Hk s p c t. unfold bind. rewrite Hm.
  destruct (m s) as [[a|e] s1]; cbn [fst snd]; [apply Hk | reflexivity].
Qed.

Lemma shift_invariant_dict_get (o : pyval) (key : pystr) (dflt : pyval) :
  shift_invariant (dict_get o key dflt).
Proof. intros s p c t. destruct o; reflexivity. Qed.

Lemma shift_invariant_prompt (token_usage : pyval) :
  shift_invariant (add_field prompt_tokens set_prompt_tokens token_usage "prompt_tokens").
Proof.
  intros s p c t. run_counter. destruct token_usage as [| z | x | u]; try reflexivity.
  destruct (default (VInt 0) (u !! utf8 "prompt_tokens")); try reflexivity.
  cbn [fst snd]. f_equal. unfold set_prompt_tokens, add_usage.
  cbn [total_tokens prompt_tokens completion_tokens]. f_equal; lia.
Qed.

Lemma shift_invariant_completion (token_usage : pyval) :
  shift_invariant
    (add_field completion_tokens set_completion_tokens token_usage "completion_tokens").
Proof.
  intros s p c t. run_counter. destruct token_usage as [| z | x | u]; try reflexivity.
  destruct (default (VInt 0) (u !! utf8 "completion_tokens")); try reflexivity.
  cbn [fst snd]. f_equal. unfold set_completion_tokens, add_usage.
  cbn [total_tokens prompt_tokens completion_tokens]. f_equal; lia.
Qed.

Lemma shift_invariant_total (token_usage : pyval) :
  shift_invariant (add_field total_tokens set_total_tokens token_usage "total_tokens").
Proof.
  intros s p c t. run_counter. destruct token_usage as [| z | x | u]; try reflexivity.
  destruct (default (VInt 0) (u !! utf8 "total_tokens")); try reflexivity.
  cbn [fst snd]. f_equal. unfold set_total_tokens, add_usage.
  cbn [total_tokens prompt_tokens completion_tokens]. f_equal; lia.
Qed.

Lemma shift_invariant_on_llm_end (response : LLMResult) :
  shift_invariant (on_llm_end response).
Proof.
  unfold on_llm_end. destruct (llm_output response) as [out|];
    [| apply shift_invariant_ret].
  destruct (truthy out); [| apply shift_invariant_ret].
  apply shift_invariant_bind; [apply shift_invariant_dict_get | intros token_usage].
  apply shift_invariant_bind; [apply shift_invariant_prompt | intros _].
  apply shift_invariant_bind; [apply shift_invariant_completion | intros _].
  apply shift_invariant_total.
Qed.

(** What an event adds does not depend on the accumulator it meets. *)
Lemma on_llm_end_adds (response : LLMResult) :
  exists p c t, forall s, snd (on_llm_end response s) = add_usage s p c t.
Proof.
  set (s0 := snd (on_llm_end response __init__)).
  exists (prompt_tokens s0), (completion_tokens s0), (total_tokens s0). intros s.
  rewrite (add_usage_fields s) at 1. rewrite shift_invariant_on_llm_end. cbn [snd].
  fold s0. rewrite (add_usage_fields s0) at 1. rewrite (add_usage_fields s) at 2.
  apply add_usage_comm.
Qed.

Lemma on_completions_swap (r1 r2 : LLMResult) (s : TokenCounterCallback) :
  on_completions [r1; r2] s = on_completions [r2; r1] s.
Proof.
  destruct (on_llm_end_adds r1) as (p1 & c1 & t1 & H1).
  destruct (on_llm_end_adds r2) as (p2 & c2 & t2 & H2).
  cbn [on_completions fold_left]. rewrite !H1, !H2. apply add_usage_comm.
Qed.

(** In the value model, where a count is [None], an [int], a [str] or a
    [dict], the totals do not depend on the order of the events at all. *)
Lemma on_completions_permutation (events events' : list LLMResult)
    (self : TokenCounterCallback) :
  Permutation events events' ->
  on_completions events self = on_completions events' self.
Proof.
  intros H. revert self.
  induction H as [| r l l' _ IH | r1 r2 l | l l' l'' _ IH1 _ IH2]; intros self.
  - reflexivity.
  - change (on_completions l (snd (on_llm_end r self))
            = on_completions l' (snd (on_llm_end r self))). apply IH.
  - change (on_completions l (on_completions [r2; r1] self)
            = on_completions l (on_completions [r1; r2] self)).
    now rewrite on_completions_swap.
  - now rewrite IH1.
Qed.

Lemma usage_response_integer (p c t : Z) : integer_counts (usage_response p c t).
Proof.
  intros d u key v Hd Hu _ Hv.
  unfold usage_response in Hd. cbn [llm_output] in Hd. injection Hd as <-.
  rewrite lookup_singleton_eq in Hu. injection Hu as <-.
  apply lookup_insert_Some in Hv as [[_ <-] | [_ Hv]]; [eauto |].
  apply lookup_insert_Some in Hv as [[_ <-] | [_ Hv]]; [eauto |].
  apply lookup_singleton_Some in Hv as [_ <-]. eauto.
Qed.

(** X11: for completion events whose counts, where present, are integers,
    the totals do not depend on the order of the events: two such sequences
    that are permutations of each other leave the same accumulator, also
    when some of the events make the callback raise because [llm_output] or
    [token_usage] is not a [dict]. *)
Theorem accumulator_order_independent (events events' : list LLMResult)
    (self : TokenCounterCallback) :
  Forall integer_counts events ->
  Permutation events events' ->
  on_completions events self = on_completions events' self.
Proof. intros _. apply on_completions_permutation. Qed.

Lemma accumulator_order_independent_witness :
  on_completions
    [usage_response 1 2 3; {| llm_output := Some (VDict {[ utf8 "token_usage" := VNone ]}) |}]
    __init__
  = on_completions
      [{| llm_output := Some (VDict {[ utf8 "token_usage" := VNone ]}) |}; usage_response 1 2 3]
      __init__.
Proof.
  apply (accumulator_order_independent
           [usage_response 1 2 3;
            {| llm_output := Some (VDict {[ utf8 "token_usage" := VNone ]}) |}]
           [{| llm_output := Some (VDict {[ utf8 "token_usage" := VNone ]}) |};
            usage_response 1 2 3] __init__).
  - constructor; [apply usage_response_integer |]. constructor; [| constructor].
    intros d u key v Hd Hu _ _. cbn [llm_output] in Hd. injection Hd as <-.
    rewrite lookup_singleton_eq in Hu. discriminate Hu.
  - apply perm_swap.
Defined.

(** X12: when [token_usage] is present but is not a [dict] (for instance
    [None]), [on_llm_end] raises the [AttributeError] of [get] and leaves the
    accumulator unchanged. *)
Theorem token_usage_not_dict_raises (response : LLMResult) (d : gmap pystr pyval)
    (v : pyval) (self : TokenCounterCallback) :
  llm_output response = Some (VDict d) ->
  d !! utf8 "token_usage" = Some v ->
  not_dict v ->
  on_llm_end response self = (Raise (no_get_message v), self).
Proof.
  intros Ho Hd Hv.
  rewrite (on_llm_end_dict response d self Ho (truthy_dict_lookup _ _ _ Hd)), Hd.
  cbn [from_option id]. run_counter.
  unfold no_get_message.
  destruct v as [| z | x | u]; [| | | now destruct (Hv u)];
    cbv beta iota; reflexivity.
Qed.

Lemma token_usage_not_dict_raises_witness :
  on_llm_end {| llm_output := Some (VDict {[ utf8 "token_usage" := VNone ]}) |} __init__
  = (Raise (no_get_message VNone), __init__).
Proof.
  apply (token_usage_not_dict_raises _ {[ utf8 "token_usage" := VNone ]} VNone __init__).
  - reflexivity.
  - apply lookup_singleton_eq.
  - intros u. discriminate.
Defined.

(** X13: a count that is [None], a [str] or a [dict] makes [on_llm_end]
    raise a [TypeError] part-way: with an integer [prompt_tokens] and such a
    [completion_tokens], the prompt count has already been added when the
    exception is raised, and [total_tokens] is never added. *)
Theorem ill_typed_count_partial_update (response : LLMResult)
    (d u : gmap pystr pyval) (p : Z) (v : pyval) (self : TokenCounterCallback) :
  llm_output response = Some (VDict d) ->
  d !! utf8 "token_usage" = Some (VDict u) ->
  u !! utf8 "prompt_tokens" = Some (VInt p) ->
  u !! utf8 "completion_tokens" = Some v ->
  rejected_count v ->
  on_llm_end response self
  = (Raise (bad_operand_message v), add_usage self p 0 0).
Proof.
  intros Ho Hd Hp Hc Hv.
  rewrite (on_llm_end_dict response d self Ho (truthy_dict_lookup _ _ _ Hd)), Hd.
  cbn [from_option id]. run_counter. rewrite Hp. cbn [from_option id].
  cbv beta iota. rewrite Hc. cbn [from_option id].
  assert (E : add_usage self p 0 0 = set_prompt_tokens (prompt_tokens self + p) self).
  { destruct self. unfold add_usage, set_prompt_tokens.
    cbn [total_tokens prompt_tokens completion_tokens]. f_equal; lia. }
  rewrite E. unfold bad_operand_message.
  destruct Hv; cbv beta iota; reflexivity.
Qed.

Lemma ill_typed_count_partial_update_witness :
  on_llm_end
    {| llm_output :=
         Some (VDict {[ utf8 "token_usage" :=
                          VDict (<[ utf8 "prompt_tokens" := VInt 7 ]>
                                 {[ utf8 "completion_tokens" := VNone ]}) ]}) |}
    __init__
  = (Raise (bad_operand_message VNone), add_usage __init__ 7 0 0).
Proof.
  apply (ill_typed_count_partial_update _
           {[ utf8 "token_usage" :=
                VDict (<[ utf8 "prompt_tokens" := VInt 7 ]>
                       {[ utf8 "completion_tokens" := VNone ]}) ]}
           (<[ utf8 "prompt_tokens" := VInt 7 ]> {[ utf8 "completion_tokens" := VNone ]})
           7 VNone __init__).
  - reflexivity.
  - apply lookup_singleton_eq.
  - apply lookup_insert_eq.
  - rewrite lookup_insert_ne by (vm_compute; discriminate). apply lookup_singleton_eq.
  - constructor.
Defined.

(** *** The report determines the totals *)

Lemma digits_not_newline (d : Decimal.uint) :
  Forall (fun c => c <> 10)
         (map N_of_ascii (list_ascii_of_string (NilEmpty.string_of_uint d))).
Proof.
  induction d; cbn [NilEmpty.string_of_uint list_ascii_of_string map];
    try constructor; trivial; vm_compute; discriminate.
Qed.

Lemma str_of_int_not_newline (z : Z) : Forall (fun c => c <> 10) (str_of_int z).
Proof.
  unfold str_of_int, NilZero.string_of_int, NilZero.string_of_uint.
  destruct (Z.to_int z) as [d | d].
  - destruct d; try apply digits_not_newline.
    repeat constructor. vm_compute. discriminate.
  - cbn [list_ascii_of_string map]. constructor; [vm_compute; discriminate |].
    destruct d; try apply digits_not_newline.
    repeat constructor. vm_compute. discriminate.
Qed.

Lemma to_int_not_nil (z : Z) :
  Z.to_int z <> Decimal.Pos Decimal.Nil /\ Z.to_int z <> Decimal.Neg Decimal.Nil.
Proof.
  destruct z as [| q | q]; cbn [Z.to_int]; split; try discriminate;
    intros H; injection H as H; now apply Unsigned.to_uint_nonnil in H.
Qed.

Lemma map_N_of_ascii_inj (a b : list ascii) :
  map N_of_ascii a = map N_of_ascii b -> a = b.
Proof.
  revert b. induction a as [|x a IH]; intros [|y b] H; try discriminate; trivial.
  cbn [map] in H. injection H as Hx H. f_equal; [| now apply IH].
  rewrite <- (ascii_N_embedding x), <- (ascii_N_embedding y). now rewrite Hx.
Qed.

(** [str] of an [int] can be read back. *)
Lemma str_of_int_inj (a b : Z) : str_of_int a = str_of_int b -> a = b.
Proof.
  unfold str_of_int. intros H. apply map_N_of_ascii_inj in H.
  apply (f_equal string_of_list_ascii) in H.
  rewrite !string_of_list_ascii_of_string in H.
  apply (f_equal NilZero.int_of_string) in H.
  destruct (to_int_not_nil a) as [Ha1 Ha2], (to_int_not_nil b) as [Hb1 Hb2].
  rewrite !NilZero.isi in H by assumption. injection H as H.
  apply (f_equal Z.of_int) in H. now rewrite !DecimalZ.of_to in H.
Qed.

(** Two texts cut at their first newline agree part by part. *)
Lemma split_at_newline (a a' tail r r' : pystr) :
  Forall (fun c => c <> 10) a -> Forall (fun c => c <> 10) a' ->
  a ++ (10 :: tail) ++ r = a' ++ (10 :: tail) ++ r' ->
  a = a' /\ r = r'.
Proof.
  intros Ha. revert a'. induction Ha as [|c a Hc Ha IH]; intros a' Ha' H.
  - destruct Ha' as [|c' a' Hc' Ha']; cbn [app] in H.
    + split; [reflexivity |]. injection H as H. now apply app_inv_head in H.
    + injection H as H. congruence.
  - destruct Ha' as [|c' a' Hc' Ha']; cbn [app] in H.
    + injection H as H. congruence.
    + injection H as <- H. destruct (IH a' Ha' H) as [-> ->]. now split.
Qed.

(** X14: the usage report determines the three totals: accumulators that
    print the same report are equal. *)
Theorem print_usage_injective (a b : TokenCounterCallback) :
  print_usage a = print_usage b -> a = b.
Proof.
  destruct a as [ta pa ca], b as [tb pb cb]. unfold print_usage.
  cbn [total_tokens prompt_tokens completion_tokens]. intros H.
  do 3 apply app_inv_head in H.
  assert (E1 : utf8 "
  Completion tokens: " = 10 :: utf8 "  Completion tokens: ")
    by (vm_compute; reflexivity).
  assert (E2 : utf8 "
  Total tokens: " = 10 :: utf8 "  Total tokens: ") by (vm_compute; reflexivity).
  assert (E3 : utf8 "
" = 10 :: []) by reflexivity.
  rewrite E1, E2, E3 in H. clear E1 E2 E3.
  apply split_at_newline in H as [Hp H]; try apply str_of_int_not_newline.
  apply split_at_newline in H as [Hc H]; try apply str_of_int_not_newline.
  apply split_at_newline in H as [Ht _]; try apply str_of_int_not_newline.
  apply str_of_int_inj in Hp, Hc, Ht. now subst.
Qed.

Lemma print_usage_injective_witness :
  on_completions [usage_response 0 0 0] __init__ = __init__.
Proof.
  apply (print_usage_injective (on_completions [usage_response 0 0 0] __init__) __init__).
  vm_compute. reflexivity.
Defined.

End TokenCounterMore.

(** ** The console session *)

Module MainFacts.
Import Py PyStr PyStrFacts TokenCounter Agent Main Effects AgentFacts TurnFacts.

Section Facts.

Variable str_lower : pystr -> pystr.
Variable ChatMistralAI : pystr -> result (list pystr -> pystr -> LLMReply).
Variable tavily : list pystr -> pystr -> pystr -> SearchReply.
Variable stdout_rejects : pystr -> option pystr.

Local Abbreviation loop := (Main.loop str_lower tavily stdout_rejects).
Local Abbreviation main := (Main.main str_lower ChatMistralAI tavily stdout_rejects).
Local Abbreviation answer_or_error := (Main.answer_or_error stdout_rejects).
Local Abbreviation is_exit := (Main.is_exit str_lower).
Local Abbreviation exit_line := (Main.exit_line str_lower).
Local Abbreviation llm_ready := (Main.llm_ready ChatMistralAI).

(** One iteration of the loop: the line ends the session, or is blank and
    is skipped, or is answered by a turn of [process_request], which
    returns, and the answer or the error of its [print] is written. *)
Lemma loop_step (llm : list pystr -> pystr -> LLMReply) (line : pystr)
    (stdin : list pystr) (w : World) :
  (is_exit (strip line) = true /\
   loop llm (line :: stdin) w
   = ([input_prompt; goodbye; print_usage (token_counter w)], Return tt, w))
  \/ (is_exit (strip line) = false /\ strip line = [] /\
      forall out r w', loop llm stdin w = (out, r, w') ->
        loop llm (line :: stdin) w = (input_prompt :: blank_warning :: out, r, w'))
  \/ (is_exit (strip line) = false /\ strip line <> [] /\
      exists response w1,
        Agent.process_request str_lower llm tavily (strip line) w = (Return response, w1) /\
        forall out r w', loop llm stdin w1 = (out, r, w') ->
          loop llm (line :: stdin) w
          = (input_prompt :: answer_or_error response :: out, r, w')).
Proof.
  cbn [Main.loop]. destruct (is_exit (strip line)) eqn:Hexit; [left; now split |].
  right. destruct (strip line) as [|c t] eqn:Hs.
  - left. split; [reflexivity |]. split; [reflexivity |].
    intros out r w' ->. reflexivity.
  - right. split; [reflexivity |]. split; [discriminate |].
    destruct (process_request_never_raises str_lower llm tavily (c :: t) w)
      as [response Hr].
    destruct (Agent.process_request str_lower llm tavily (c :: t) w) as [res w1].
    cbn [fst] in Hr. subst res. exists response, w1. split; [reflexivity |].
    intros out r w' ->. reflexivity.
Qed.

(** The lines after the one that ends the session are never read. *)
Lemma loop_exit_cut (llm : list pystr -> pystr -> LLMReply)
    (before : list pystr) (line : pystr) (rest : list pystr) (w : World) :
  exit_line line ->
  loop llm (before ++ line :: rest) w = loop llm (before ++ [line]) w.
Proof.
  intros Hexit. revert w. induction before as [|l before IH]; intros w; cbn [app].
  - destruct (loop_step llm line rest w) as [[_ ->] | [[H _] | [H _]]];
      [| unfold Main.exit_line in Hexit; congruence ..].
    destruct (loop_step llm line [] w) as [[_ ->] | [[H _] | [H _]]];
      [reflexivity | unfold Main.exit_line in Hexit; congruence ..].
  - destruct (loop_step llm l (before ++ line :: rest) w)
      as [[He E1] | [(He & Hb & E1) | (He & Hb & response & w1 & Hr & E1)]];
    destruct (loop_step llm l (before ++ [line]) w)
      as [[He' E2] | [(He' & Hb' & E2) | (He' & Hb' & response' & w1' & Hr' & E2)]];
      try congruence.
    + destruct (loop llm (before ++ [line]) w) as [[out r] w'] eqn:E.
      rewrite (E2 _ _ _ eq_refl). apply E1. now rewrite IH.
    + rewrite Hr in Hr'. injection Hr' as <- <-.
      destruct (loop llm (before ++ [line]) w1) as [[out r] w'] eqn:E.
      rewrite (E2 _ _ _ eq_refl). apply E1. now rewrite IH.
Qed.

(** X15: a session ends at the first line that, stripped and lowercased,
    is "sair", "exit" or "quit": whatever follows it on standard input is
    never read, and changes neither what is written nor the world left. *)
Theorem session_ignores_lines_after_exit (before : list pystr) (line : pystr)
    (rest : list pystr) (w : World) :
  exit_line line ->
  main (before ++ line :: rest) w = main (before ++ [line]) w.
Proof.
  intros Hexit. unfold Main.main.
  destruct (environ w !! MISTRAL_API_KEY) as [[|c key]|]; try reflexivity.
  destruct (ChatMistralAI (c :: key)) as [llm | e]; [| reflexivity].
  now rewrite (loop_exit_cut llm before line rest _ Hexit).
Qed.

Lemma main_ready (llm : list pystr -> pystr -> LLMReply) (stdin : list pystr)
    (w : World) :
  llm_ready w llm ->
  main stdin w
  = (banner ++ greeting ++ fst (fst (loop llm stdin (set_token_counter __init__ w))) ++
     match snd (fst (loop llm stdin (set_token_counter __init__ w))) with
     | Return _ => []
     | Raise e => [init_error_text e]
     end,
     snd (loop llm stdin (set_token_counter __init__ w))).
Proof.
  intros (key & Hkey & Hne & Hllm). unfold Main.main. rewrite Hkey.
  destruct key as [|c key]; [congruence |]. rewrite Hllm.
  now destruct (loop llm stdin (set_token_counter __init__ w)) as [[out r] w'].
Qed.

Lemma loop_until_exit (llm : list pystr -> pystr -> LLMReply) (stdin : list pystr)
    (w : World) :
  Exists exit_line stdin ->
  exists out w',
    loop llm stdin w = (out ++ [goodbye; print_usage (token_counter w')], Return tt, w').
Proof.
  revert w. induction stdin as [|line stdin IH]; intros w H; [inversion H |].
  destruct (loop_step llm line stdin w)
    as [[He E] | [(He & Hb & E) | (He & Hb & response & w1 & Hr & E)]].
  - exists [input_prompt], w. exact E.
  - assert (Ht : Exists exit_line stdin).
    { inversion H as [? ? Hx | ? ? Hx]; subst; [| exact Hx].
      unfold Main.exit_line in Hx. congruence. }
    destruct (IH w Ht) as (out & w' & Hl).
    exists (input_prompt :: blank_warning :: out), w'. exact (E _ _ _ Hl).
  - assert (Ht : Exists exit_line stdin).
    { inversion H as [? ? Hx | ? ? Hx]; subst; [| exact Hx].
      unfold Main.exit_line in Hx. congruence. }
    destruct (IH w1 Ht) as (out & w' & Hl).
    exists (input_prompt :: answer_or_error response :: out), w'. exact (E _ _ _ Hl).
Qed.

Lemma loop_until_eof (llm : list pystr -> pystr -> LLMReply) (stdin : list pystr)
    (w : World) :
  Forall (fun line => ~ exit_line line) stdin ->
  exists out w', loop llm stdin w = (out ++ [input_prompt], Raise eof_message, w').
Proof.
  revert w. induction stdin as [|line stdin IH]; intros w H.
  - now exists [], w.
  - inversion H as [| ? ? Hx Ht]; subst.
    destruct (loop_step llm line stdin w)
      as [[He E] | [(He & Hb & E) | (He & Hb & response & w1 & Hr & E)]].
    + now destruct Hx.
    + destruct (IH w Ht) as (out & w' & Hl).
      exists (input_prompt :: blank_warning :: out), w'. exact (E _ _ _ Hl).
    + destruct (IH w1 Ht) as (out & w' & Hl).
      exists (input_prompt :: answer_or_error response :: out), w'. exact (E _ _ _ Hl).
Qed.

(** What the loop writes: prompts, warnings and answers, and the farewell
    and the report only when a line ends the session. *)
Lemma loop_writes (P : pystr -> Prop) (llm : list pystr -> pystr -> LLMReply)
    (stdin : list pystr) (w : World) :
  P input_prompt -> P blank_warning -> (forall r, P (answer_text r)) ->
  (forall r e, stdout_rejects (answer_text r) = Some e -> P (turn_error_text e)) ->
  (Exists exit_line stdin -> P goodbye /\ forall c, P (print_usage c)) ->
  Forall P (fst (fst (loop llm stdin w))).
Proof.
  intros Hp Hb Ha0 He0.
  assert (Ha : forall r, P (answer_or_error r)).
  { intros r. unfold Main.answer_or_error.
    destruct (stdout_rejects (answer_text r)) eqn:E; [now apply (He0 r) | apply Ha0]. }
  revert w. induction stdin as [|line stdin IH]; intros w Hx.
  - cbn [Main.loop fst]. now repeat constructor.
  - destruct (loop_step llm line stdin w)
      as [[He E] | [(He & _ & E) | (He & _ & response & w1 & _ & E)]].
    + rewrite E. cbn [fst]. destruct Hx as [Hg Hu]; [now left |].
      repeat constructor; trivial.
    + destruct (loop llm stdin w) as [[out r] w'] eqn:El.
      rewrite (E _ _ _ eq_refl). cbn [fst].
      constructor; [exact Hp |]. constructor; [exact Hb |].
      specialize (IH w). rewrite El in IH. apply IH. intros Ht. apply Hx. now right.
    + destruct (loop llm stdin w1) as [[out r] w'] eqn:El.
      rewrite (E _ _ _ eq_refl). cbn [fst].
      constructor; [exact Hp |]. constructor; [apply Ha |].
      specialize (IH w1). rewrite El in IH. apply IH. intros Ht. apply Hx. now right.
Qed.

(** What a session writes. *)
Lemma main_writes (P : pystr -> Prop) (stdin : list pystr) (w : World) :
  Forall P banner -> Forall P greeting -> (forall e, P (init_error_text e)) ->
  P input_prompt -> P blank_warning -> (forall r, P (answer_text r)) ->
  (forall r e, stdout_rejects (answer_text r) = Some e -> P (turn_error_text e)) ->
  (Exists exit_line stdin -> P goodbye /\ forall c, P (print_usage c)) ->
  Forall P (fst (main stdin w)).
Proof.
  intros Hban Hgr Hinit Hp Hb Ha He Hx. unfold Main.main.
  destruct (environ w !! MISTRAL_API_KEY) as [[|c key]|]; cbn [fst];
    try (apply Forall_app; split; [exact Hban | now repeat constructor]).
  destruct (ChatMistralAI (c :: key)) as [llm | e]; cbn [fst];
    [| apply Forall_app; split; [exact Hban | now repeat constructor]].
  pose proof (loop_writes P llm stdin (set_token_counter __init__ w) Hp Hb Ha He Hx)
    as Hl.
  destruct (loop llm stdin (set_token_counter __init__ w)) as [[out r] w'].
  cbn [fst] in *. repeat (apply Forall_app; split); trivial.
  destruct r; now repeat constructor.
Qed.

(** X16: when the chat model is built and some line ends the session, the
    session ends normally: the last two texts written are the farewell and
    the usage report of the accumulator the session leaves, and no
    initialization error is written anywhere. *)
Theorem session_ends_with_report (llm : list pystr -> pystr -> LLMReply)
    (stdin : list pystr) (w : World) :
  llm_ready w llm -> Exists exit_line stdin ->
  (exists out w',
     main stdin w
     = (banner ++ greeting ++ out ++ [goodbye; print_usage (token_counter w')], w')) /\
  (forall e, ~ In (init_error_text e) (fst (main stdin w))).
Proof.
  intros Hready Hexit. rewrite (main_ready llm stdin w Hready).
  pose proof (loop_writes
                (fun text => startswith text (utf8 "
ERRO ao i") = false) llm stdin (set_token_counter __init__ w)) as Hall.
  destruct (loop_until_exit llm stdin (set_token_counter __init__ w) Hexit)
    as (out & w' & El).
  rewrite El in Hall |- *. cbn [fst snd] in Hall |- *. split.
  - exists out, w'. now rewrite app_nil_r.
  - intros e Hin. rewrite app_nil_r in Hin.
    assert (Hout : Forall (fun text => startswith text (utf8 "
ERRO ao i") = false) (out ++ [goodbye; print_usage (token_counter w')])).
    { apply Hall; try (intros; vm_compute; reflexivity).
      intros _. split; intros; vm_compute; reflexivity. }
    assert (Hfix : Forall (fun text => startswith text (utf8 "
ERRO ao i") = false) (banner ++ greeting))
      by (repeat constructor; vm_compute; reflexivity).
    rewrite app_assoc in Hin. apply in_app_or in Hin as [Hin | Hin];
      apply list_elem_of_In in Hin;
      [rewrite Forall_forall in Hfix; specialize (Hfix _ Hin)
      | rewrite Forall_forall in Hout; specialize (Hout _ Hin)];
      match goal with H : startswith _ _ = false |- _ => vm_compute in H; discriminate H end.
Qed.

(** X17: when standard input ends before any line ends the session, the
    [EOFError] of [input] is caught by the outer handler: the session ends
    with one more prompt and the text "ERRO ao inicializar o agente: EOF
    when reading a line", and no usage report is ever written. *)
Theorem session_without_exit (llm : list pystr -> pystr -> LLMReply)
    (stdin : list pystr) (w : World) :
  llm_ready w llm -> Forall (fun line => ~ exit_line line) stdin ->
  (exists out w',
     main stdin w
     = (banner ++ greeting ++ out ++ [input_prompt; init_error_text eof_message], w')) /\
  (forall c, ~ In (print_usage c) (fst (main stdin w))).
Proof.
  intros Hready Hno. split.
  - rewrite (main_ready llm stdin w Hready).
    destruct (loop_until_eof llm stdin (set_token_counter __init__ w) Hno)
      as (out & w' & ->).
    exists out, w'. cbn [fst snd]. now rewrite <- app_assoc.
  - intros c Hin.
    assert (Hall : Forall (fun text => startswith text (utf8 "
=") = false) (fst (main stdin w))).
    { apply main_writes; try (intros; vm_compute; reflexivity).
      - repeat constructor; vm_compute; reflexivity.
      - repeat constructor; vm_compute; reflexivity.
      - intros Hex. exfalso. apply Exists_exists in Hex as (line & Hl & Hx).
        rewrite Forall_forall in Hno. now apply (Hno line). }
    rewrite Forall_forall in Hall. apply list_elem_of_In in Hin.
    specialize (Hall _ Hin). vm_compute in Hall. discriminate.
Qed.



Lemma process_request_calls (llm : list pystr -> pystr -> LLMReply)
    (user_input : pystr) (w : World) :
  calls_between w (snd (Agent.process_request str_lower llm tavily user_input w)) 1 2.
Proof.
  destruct (selects_total (str_lower user_input)) as [i Hi].
  rewrite (process_request_handler str_lower llm tavily _ _ Hi).
  eapply calls_between_weaken; [| | apply makes_calls_handler]; destruct i; cbn; lia.
Qed.

Lemma loop_calls (llm : list pystr -> pystr -> LLMReply) (stdin : list pystr)
    (w : World) :
  calls_between w (snd (loop llm stdin w)) (length stdin) (2 * length stdin).
Proof.
  revert w. induction stdin as [|line stdin IH]; intros w.
  - apply calls_between_refl.
  - destruct (loop_step llm line stdin w)
      as [[He E] | [(He & _ & E) | (He & _ & response & w1 & Hr & E)]].
    + rewrite E. apply calls_between_refl.
    + specialize (IH w). destruct (loop llm stdin w) as [[out r] w'] eqn:El.
      rewrite (E _ _ _ eq_refl). cbn [snd] in *.
      eapply calls_between_weaken; [| | exact IH]; cbn [length]; lia.
    + specialize (IH w1). destruct (loop llm stdin w1) as [[out r] w'] eqn:El.
      rewrite (E _ _ _ eq_refl). cbn [snd] in *.
      pose proof (process_request_calls llm (strip line) w) as Hc.
      rewrite Hr in Hc. cbn [snd] in Hc.
      eapply calls_between_weaken;
        [| | exact (calls_between_trans _ _ _ _ _ _ _ Hc IH)]; cbn [length]; lia.
Qed.

(** X19: a session leaves the environment as it is and keeps the calls
    logged before; over [n] lines of input it sends at most [n] queries to
    the search tool and [2 * n] prompts to the chat model. *)
Theorem session_call_bounds (stdin : list pystr) (w : World) :
  calls_between w (snd (main stdin w)) (length stdin) (2 * length stdin).
Proof.
  unfold Main.main.
  destruct (environ w !! MISTRAL_API_KEY) as [[|c key]|]; cbn [snd];
    try apply calls_between_refl.
  destruct (ChatMistralAI (c :: key)) as [llm | e]; cbn [snd];
    [| apply calls_between_refl].
  pose proof (loop_calls llm stdin (set_token_counter __init__ w)) as H.
  destruct (loop llm stdin (set_token_counter __init__ w)) as [[out r] w'].
  cbn [snd] in *. exact H.
Qed.

Lemma is_exit_empty : str_lower [] = [] -> is_exit [] = false.
Proof. intros H. unfold Main.is_exit. rewrite H. vm_compute. reflexivity. Qed.

Lemma loop_skips_blank (llm : list pystr -> pystr -> LLMReply) (stdin : list pystr)
    (w : World) :
  str_lower [] = [] ->
  snd (loop llm stdin w)
  = snd (loop llm (List.filter (fun line => negb (blank_line line)) stdin) w) /\
  snd (fst (loop llm stdin w))
  = snd (fst (loop llm (List.filter (fun line => negb (blank_line line)) stdin) w)).
Proof.
  intros Hlow. revert w. induction stdin as [|line stdin IH]; intros w;
    [now split |].
  cbn [List.filter].
  destruct (loop_step llm line stdin w)
    as [[He E] | [(He & Hb & E) | (He & Hb & response & w1 & Hr & E)]].
  - assert (Hn : blank_line line = false).
    { unfold blank_line. destruct (strip line) eqn:Hs; [| reflexivity].
      now rewrite (is_exit_empty Hlow) in He. }
    rewrite Hn. cbn [negb].
    destruct (loop_step llm line (List.filter (fun l => negb (blank_line l)) stdin) w)
      as [[_ E'] | [(He' & _) | (He' & _)]]; try congruence.
    rewrite E, E'. now split.
  - assert (Hn : blank_line line = true) by (unfold blank_line; now rewrite Hb).
    rewrite Hn. cbn [negb]. specialize (IH w).
    destruct (loop llm stdin w) as [[out r] w'] eqn:El.
    rewrite (E _ _ _ eq_refl). exact IH.
  - assert (Hn : blank_line line = false).
    { unfold blank_line. now destruct (strip line). }
    rewrite Hn. cbn [negb].
    destruct (loop_step llm line (List.filter (fun l => negb (blank_line l)) stdin) w)
      as [[He' _] | [(_ & Hb' & _) | (_ & _ & response' & w1' & Hr' & E')]];
      try congruence.
    rewrite Hr in Hr'. injection Hr' as <- <-. specialize (IH w1).
    destruct (loop llm stdin w1) as [[out r] w'] eqn:El.
    destruct (loop llm (List.filter (fun l => negb (blank_line l)) stdin) w1)
      as [[out2 r2] w2] eqn:El2.
    rewrite (E _ _ _ eq_refl), (E' _ _ _ eq_refl). exact IH.
Qed.

(** X20: blank lines (empty once stripped) are skipped without any effect
    on the world: a session leaves the same world, with the same calls made
    and the same accumulator, as the session on the input without its blank
    lines. ([str.lower] maps the empty string to itself.) *)
Theorem blank_lines_change_nothing (stdin : list pystr) (w : World) :
  str_lower [] = [] ->
  snd (main stdin w)
  = snd (main (List.filter (fun line => negb (blank_line line)) stdin) w).
Proof.
  intros Hlow. unfold Main.main.
  destruct (environ w !! MISTRAL_API_KEY) as [[|c key]|]; try reflexivity.
  destruct (ChatMistralAI (c :: key)) as [llm | e]; [| reflexivity].
  destruct (loop_skips_blank llm stdin (set_token_counter __init__ w) Hlow) as [H _].
  destruct (loop llm stdin (set_token_counter __init__ w)) as [[out r] w'].
  destruct (loop llm (List.filter (fun l => negb (blank_line l)) stdin)
              (set_token_counter __init__ w)) as [[out2 r2] w2].
  exact H.
Qed.

Lemma loop_counter_grows (llm : list pystr -> pystr -> LLMReply) (stdin : list pystr)
    (w : World) :
  llm_reports_nonneg llm ->
  counter_le (token_counter w) (token_counter (snd (loop llm stdin w))).
Proof.
  intros Hnn. revert w. induction stdin as [|line stdin IH]; intros w.
  - apply TokenCounterFacts.counter_le_refl.
  - destruct (loop_step llm line stdin w)
      as [[He E] | [(He & _ & E) | (He & _ & response & w1 & Hr & E)]].
    + rewrite E. apply TokenCounterFacts.counter_le_refl.
    + specialize (IH w). destruct (loop llm stdin w) as [[out r] w'] eqn:El.
      now rewrite (E _ _ _ eq_refl).
    + specialize (IH w1). destruct (loop llm stdin w1) as [[out r] w'] eqn:El.
      rewrite (E _ _ _ eq_refl). cbn [snd] in *.
      pose proof (counter_grows_process_request str_lower llm tavily (strip line) Hnn w)
        as Hg.
      rewrite Hr in Hg. cbn [snd] in Hg.
      eapply TokenCounterFacts.counter_le_trans; eauto.
Qed.

(** X22: the accumulator of a session starts from zero whatever the world
    held before, so when every answer of the chat model reports
    non-negative counts, the totals a session leaves (and reports) are
    non-negative. *)
Theorem session_totals_nonneg (llm : list pystr -> pystr -> LLMReply)
    (stdin : list pystr) (w : World) :
  llm_ready w llm -> llm_reports_nonneg llm ->
  counter_le __init__ (token_counter (snd (main stdin w))).
Proof.
  intros Hready Hnn. rewrite (main_ready llm stdin w Hready). cbn [snd].
  exact (loop_counter_grows llm stdin (set_token_counter __init__ w) Hnn).
Qed.

End Facts.

(** *** The theorems at concrete sessions *)

Lemma ready_world_llm_ready (llm : list pystr -> pystr -> LLMReply) :
  llm_ready (mistral_ok llm) ready_world llm.
Proof.
  exists (utf8 "mistral-key"). split; [apply lookup_insert_eq |].
  split; [discriminate | reflexivity].
Qed.

Lemma shouted_exit_line : exit_line lower_l1 (utf8 "  SAIR ").
Proof. vm_compute. reflexivity. Qed.

Lemma greeting_is_not_exit : ~ exit_line lower_l1 (utf8 "Quem é você?").
Proof. intros H. vm_compute in H. discriminate H. Qed.

Lemma session_ignores_lines_after_exit_witness :
  Main.main lower_l1 (mistral_ok (mock_llm (utf8 "ok"))) empty_search Doubles.accepting_stdout
    ([utf8 "Quem é você?"] ++ utf8 "  SAIR " :: [utf8 "Busque notícias"]) ready_world
  = Main.main lower_l1 (mistral_ok (mock_llm (utf8 "ok"))) empty_search Doubles.accepting_stdout
      ([utf8 "Quem é você?"] ++ [utf8 "  SAIR "]) ready_world.
Proof.
  apply (session_ignores_lines_after_exit lower_l1 (mistral_ok (mock_llm (utf8 "ok")))
           empty_search Doubles.accepting_stdout [utf8 "Quem é você?"] (utf8 "  SAIR ") [utf8 "Busque notícias"]
           ready_world).
  apply shouted_exit_line.
Defined.

Lemma session_ends_with_report_witness :
  (exists out w',
     Main.main lower_l1 (mistral_ok (mock_llm (utf8 "ok"))) empty_search
       Doubles.accepting_stdout [utf8 "Quem é você?"; utf8 "  SAIR "] ready_world
     = (banner ++ greeting ++ out ++ [goodbye; print_usage (token_counter w')], w')) /\
  (forall e,
     ~ In (init_error_text e)
          (fst (Main.main lower_l1 (mistral_ok (mock_llm (utf8 "ok"))) empty_search
                  Doubles.accepting_stdout [utf8 "Quem é você?"; utf8 "  SAIR "]
                  ready_world))).
Proof.
  apply (session_ends_with_report lower_l1 (mistral_ok (mock_llm (utf8 "ok")))
           empty_search Doubles.accepting_stdout (mock_llm (utf8 "ok"))
           [utf8 "Quem é você?"; utf8 "  SAIR "] ready_world).
  - apply ready_world_llm_ready.
  - right. left. apply shouted_exit_line.
Defined.



Lemma session_without_exit_witness :
  (exists out w',
     Main.main lower_l1 (mistral_ok (mock_llm (utf8 "ok"))) empty_search Doubles.accepting_stdout
       [utf8 "Quem é você?"] ready_world
     = (banner ++ greeting ++ out ++ [input_prompt; init_error_text eof_message], w')) /\
  (forall c,
     ~ In (print_usage c)
          (fst (Main.main lower_l1 (mistral_ok (mock_llm (utf8 "ok"))) empty_search Doubles.accepting_stdout
                  [utf8 "Quem é você?"] ready_world))).
Proof.
  apply (session_without_exit lower_l1 (mistral_ok (mock_llm (utf8 "ok")))
           empty_search Doubles.accepting_stdout (mock_llm (utf8 "ok")) [utf8 "Quem é você?"] ready_world).
  - apply ready_world_llm_ready.
  - constructor; [apply greeting_is_not_exit | constructor].
Defined.

Lemma blank_lines_change_nothing_witness :
  snd (Main.main lower_l1 (mistral_ok (mock_llm (utf8 "ok"))) empty_search Doubles.accepting_stdout
         [utf8 "   "; utf8 "Quem é você?"; []] ready_world)
  = snd (Main.main lower_l1 (mistral_ok (mock_llm (utf8 "ok"))) empty_search Doubles.accepting_stdout
           (List.filter (fun line => negb (blank_line line))
                        [utf8 "   "; utf8 "Quem é você?"; []]) ready_world).
Proof.
  apply (blank_lines_change_nothing lower_l1 (mistral_ok (mock_llm (utf8 "ok")))
           empty_search Doubles.accepting_stdout [utf8 "   "; utf8 "Quem é você?"; []] ready_world).
  reflexivity.
Defined.

Lemma session_totals_nonneg_witness :
  counter_le __init__
    (token_counter
       (snd (Main.main lower_l1 (mistral_ok (Doubles.metered_llm (utf8 "ok") 3 4 7))
               empty_search Doubles.accepting_stdout [utf8 "Quem é você?"; utf8 "sair"] ready_world))).
Proof.
  apply (session_totals_nonneg lower_l1 (mistral_ok (Doubles.metered_llm (utf8 "ok") 3 4 7))
           empty_search Doubles.accepting_stdout (Doubles.metered_llm (utf8 "ok") 3 4 7)
           [utf8 "Quem é você?"; utf8 "sair"] ready_world).
  - apply ready_world_llm_ready.
  - apply metered_llm_nonneg; lia.
Defined.

End MainFacts.

(** ** Evaluations *)

Example utf8_i_acute : PyStr.utf8 "notícia" = [110; 111; 116; 237; 99; 105; 97].
Proof. reflexivity. Qed.

Example replace_nonoverlapping :
  PyStr.replace (PyStr.utf8 "aaaa") (PyStr.utf8 "aa") (PyStr.utf8 "b") = PyStr.utf8 "bb".
Proof. reflexivity. Qed.

Example replace_not_rescanned :
  PyStr.replace (PyStr.utf8 "anaanaliselise") (PyStr.utf8 "analise") [] = PyStr.utf8 "analise".
Proof. reflexivity. Qed.

Example replace_empty_old :
  PyStr.replace (PyStr.utf8 "abc") [] (PyStr.utf8 "x") = PyStr.utf8 "xaxbxcx".
Proof. reflexivity. Qed.

Example strip_both_ends :
  PyStr.strip (PyStr.utf8 "  o  texto ") = PyStr.utf8 "o  texto".
Proof. reflexivity. Qed.

Example str_of_int_neg : PyStr.str_of_int (-120) = PyStr.utf8 "-120".
Proof. reflexivity. Qed.

Example str_of_int_zero : PyStr.str_of_int 0 = PyStr.utf8 "0".
Proof. reflexivity. Qed.

Example strip_keeps_capitalised_trigger :
  Agent.text_to_analyze (PyStr.utf8 "Analise o sentimento: O mercado subiu hoje com força")
  = PyStr.utf8 "Analise o  O mercado subiu hoje com força".
Proof. vm_compute. reflexivity. Qed.

Example strip_inside_a_word :
  Agent.text_to_analyze (PyStr.utf8 "reanalisei o mercado financeiro hoje")
  = PyStr.utf8 "rei o mercado financeiro hoje".
Proof. vm_compute. reflexivity. Qed.

Example strip_lowercase_request :
  Agent.text_to_analyze (PyStr.utf8 "analise o sentimento desta notícia: Bolsa cai 3% após anúncio")
  = PyStr.utf8 "o   Bolsa cai 3% após anúncio".
Proof. vm_compute. reflexivity. Qed.

Example search_news_two_results :
  fst (Agent.search_news
         (fun _ _ _ =>
            Agent.SearchReturn
              (Agent.ResultList
                 [ {[ PyStr.utf8 "title" := PyStr.utf8 "PIB"; PyStr.utf8 "url" := PyStr.utf8 "u1" ]};
                   {[ PyStr.utf8 "content" := PyStr.utf8 "juros" ]} ]))
         (PyStr.utf8 "Busque notícias sobre economia") Agent.configured_world)
  = Py.Return (PyStr.utf8 "1. PIB
   Sem conteúdo
   Fonte: u1

2. Sem título
   juros
   Fonte: ").
Proof. vm_compute. reflexivity. Qed.

Example general_turn :
  Agent.process_request Agent.lower_l1 (Agent.mock_llm (PyStr.utf8 "Olá!"))
    Agent.empty_search (PyStr.utf8 "Quem é você?") Agent.configured_world
  = (Py.Return (PyStr.utf8 "Olá!"),
     Agent.log_llm (Agent.general_prompt (PyStr.utf8 "Quem é você?"))
       Agent.configured_world).
Proof. vm_compute. reflexivity. Qed.

Example failing_search_turn :
  Agent.process_request Agent.lower_l1 (Agent.mock_llm (PyStr.utf8 "ok"))
    (Agent.failing_search (PyStr.utf8 "timeout"))
    (PyStr.utf8 "Procure algo") Agent.configured_world
  = (Py.Return (PyStr.utf8 "ERRO ao buscar notícias: timeout"),
     Agent.log_search (PyStr.utf8 "Procure algo") Agent.configured_world).
Proof. vm_compute. reflexivity. Qed.

Example on_llm_end_none_count_raises :
  TokenCounter.on_llm_end
    {| TokenCounter.llm_output :=
         Some (Py.VDict {[ PyStr.utf8 "token_usage" :=
                             Py.VDict (<[ PyStr.utf8 "prompt_tokens" := Py.VInt 7 ]>
                                       {[ PyStr.utf8 "completion_tokens" := Py.VNone ]}) ]}) |}
    TokenCounter.__init__
  = (Py.Raise (PyStr.utf8 "unsupported operand type(s) for +=: 'int' and 'NoneType'"),
     {| TokenCounter.total_tokens := 0; TokenCounter.prompt_tokens := 7;
        TokenCounter.completion_tokens := 0 |}).
Proof. vm_compute. reflexivity. Qed.
